(** * deploy_cloud_run.py: the dotenv parser, the command runner and the
      deployment orchestrator, embedded as Rocq functions.

    Python values are modelled as follows.
    - [str] is a list of characters.  Characters are code points below 256
      ([ascii]); the file is taken as already decoded.
    - the dict [env_vars] is a finite map from [str] to [str] (stdpp's gmap).
    - integers (exit codes) are [Z].
    - the effects of [main] (printing, spawning gcloud, reading, writing and
      removing files, [sys.exit]) are threaded through a state-and-exit monad
      over a [world] record. *)

From Stdlib Require Import Ascii String ZArith Lia.
From stdpp Require Import gmap strings list fin_maps sorting.

Open Scope Z_scope.
Open Scope list_scope.

Abbreviation str := (list ascii).

(** String literals of the source, written [lit "..."]. *)
Definition lit (s : string) : str := list_ascii_of_string s.

(** The two quote characters the parser looks for. *)
Definition dquote : ascii := ascii_of_nat 34.
Definition squote : ascii := ascii_of_nat 39.
Definition LF : ascii := ascii_of_nat 10.
Definition CR : ascii := ascii_of_nat 13.

(** ** Python string methods used by the script *)
Module Py.

(** [ch.isspace()] for a code point below 256: TAB, LF, VT, FF, CR,
    FS, GS, RS, US, SPACE, NEL (0x85) and NBSP (0xA0). *)
Definition isspace (c : ascii) : bool :=
  let n := nat_of_ascii c in
  ((9 <=? n) && (n <=? 13))%nat || ((28 <=? n) && (n <=? 32))%nat
  || (n =? 133)%nat || (n =? 160)%nat.

(** [s.lstrip()] *)
Fixpoint lstrip (s : str) : str :=
  match s with
  | c :: s' => if isspace c then lstrip s' else s
  | [] => []
  end.

(** [s.rstrip()] *)
Definition rstrip (s : str) : str := rev (lstrip (rev s)).

(** [s.strip()] *)
Definition strip (s : str) : str := rstrip (lstrip s).

(** [s.startswith(p)] *)
Fixpoint startswith (s p : str) : bool :=
  match p, s with
  | [], _ => true
  | _ :: _, [] => false
  | a :: p', c :: s' => if decide (a = c) then startswith s' p' else false
  end.

(** [s.endswith(p)] *)
Definition endswith (s p : str) : bool := startswith (rev s) (rev p).

(** [sub in s], substring test. *)
Fixpoint contains (sub s : str) : bool :=
  startswith s sub ||
  match s with
  | [] => false
  | _ :: s' => contains sub s'
  end.

(** [s.split(sep, 1)] for a one-character separator: the text before the
    first [sep] and the text after it, or [s] alone when there is none. *)
Fixpoint split1 (sep : ascii) (s : str) : list str :=
  match s with
  | [] => [[]]
  | c :: s' =>
      if decide (c = sep) then [[]; s']
      else match split1 sep s' with
           | h :: t => (c :: h) :: t
           | [] => []
           end
  end.

(** Index normalisation of a slice bound: negative bounds count from the
    end, and the result is clamped to [0, len]. *)
Definition clamp (len i : Z) : Z :=
  let j := if i <? 0 then i + len else i in
  Z.max 0 (Z.min len j).

(** [s[start:stop]] *)
Definition slice (s : str) (start stop : Z) : str :=
  let len := Z.of_nat (length s) in
  let a := clamp len start in
  let b := clamp len stop in
  take (Z.to_nat (b - a)) (drop (Z.to_nat a) s).

(** Truth value of a [str]: the empty string is false. *)
Definition truthy (s : str) : bool :=
  match s with [] => false | _ => true end.

(** Truth value of a value that is [None] or a [str]. *)
Definition truthy_opt (o : option str) : bool :=
  match o with None => false | Some s => truthy s end.

(** [a or b] where [a] is [None] or a [str]. *)
Definition or_else (a b : option str) : option str :=
  if truthy_opt a then a else b.

(** Lines as the text-mode file iterator yields them (universal
    newlines): a line ends after LF, CR LF or a lone CR, each delivered as
    LF; a last line without terminator is delivered as it is. *)
Fixpoint lines_from (cur : str) (s : str) : list str :=
  match s with
  | [] => match cur with [] => [] | _ => [rev cur] end
  | c :: rest =>
      if decide (c = LF) then rev (LF :: cur) :: lines_from [] rest
      else if decide (c = CR) then
        match rest with
        | d :: rest' =>
            if decide (d = LF) then rev (LF :: cur) :: lines_from [] rest'
            else rev (LF :: cur) :: lines_from [] rest
        | [] => [rev (LF :: cur)]
        end
      else lines_from (c :: cur) rest
  end.

Definition readlines (content : str) : list str := lines_from [] content.

End Py.

(** ** Module constants *)

Definition REGION : str := lit "us-central1".
Definition SERVICE_NAME : str := lit "openwork".
Definition PROJECT_ID : str := lit "limitless-ai-483404".
Definition IMAGE_TAG : str :=
  lit "gcr.io/" ++ PROJECT_ID ++ lit "/" ++ SERVICE_NAME ++ lit ":latest".
Definition ENV_FILE : str := lit ".env.local".
Definition TEMP_ENV_YAML : str := lit "env_vars_temp.yaml".

(** ** parse_env_file: the body of the loop over the lines *)

(** Lines 57 to 60: the value without its outer quotes when it starts and
    ends with a double quote, or starts and ends with a single quote. *)
Definition strip_quotes (value : str) : str :=
  if (Py.startswith value [dquote] && Py.endswith value [dquote])
     || (Py.startswith value [squote] && Py.endswith value [squote])
  then Py.slice value 1 (-1)
  else value.

(** One iteration of [for line in f]: the pair [(key, value)] stored by
    [env_vars[key] = value], or [None] when the iteration stores nothing
    (the [continue], or a line without [=]). *)
Definition line_entry (line : str) : option (str * str) :=
  let line := Py.strip line in
  if negb (Py.truthy line) || Py.startswith line (lit "#") then None
  else
    let line :=
      if Py.contains (lit "#") line
      then Py.strip (default [] (head (Py.split1 "#" line)))
      else line in
    if Py.contains (lit "=") line then
      match Py.split1 "=" line with
      | [key; value] =>
          let key := Py.strip key in
          let value := Py.strip value in
          let value := strip_quotes value in
          Some (key, value)
      | _ => None
      end
    else None.

Definition parse_line (env_vars : gmap str str) (line : str) : gmap str str :=
  match line_entry line with
  | Some (key, value) => <[key := value]> env_vars
  | None => env_vars
  end.

(** The whole loop, from the empty dict. *)
Definition parse_lines (lines : list str) : gmap str str :=
  foldl parse_line ∅ lines.

(** ** The outside world *)

(** [cmd] of [run]: an argument list, or a string handed to the shell
    ([shell=isinstance(cmd, str)]). *)
Inductive command :=
  | Argv (args : list str)
  | Shell (line : str).

(** Exceptions that reach the script; each carries its message. *)
Inductive exn :=
  | FileNotFoundError (msg : str)
  | OSError (msg : str).

(** What became of a child process: it could not be started, or it ran to
    completion with an exit status and the text it wrote to its standard
    output and standard error. *)
Inductive child :=
  | Unstartable (e : exn)
  | Exited (code : Z) (out err : str).

(** [subprocess.CompletedProcess]; a stream that was not captured is
    [None]. *)
Record CompletedProcess := {
  returncode : Z;
  stdout : option str;
  stderr : option str
}.

(** What the script itself does to the outside, in order. *)
Inductive event :=
  | Print (s : str)
  | Spawn (cmd : command) (capture : bool).

(** How a Python computation ends: with a value, by [sys.exit(code)]
    ([SystemExit]), or by another exception. *)
Inductive outcome (A : Type) :=
  | Ret (a : A)
  | Exit (code : Z)
  | Raise (e : exn).
Arguments Ret {A} a.
Arguments Exit {A} code.
Arguments Raise {A} e.

(** Exit status of the interpreter when [main()] at top level ends so:
    0 after a normal return, the argument of [sys.exit], 1 after an uncaught
    exception. *)
Definition exit_status {A} (o : outcome A) : Z :=
  match o with
  | Ret _ => 0
  | Exit code => code
  | Raise _ => 1
  end.

Section Script.

(** State of everything outside the file system that a child process may
    read or change (the cloud project, the network, the clock). *)
Variable Ext : Type.

(** The operating system running a command: from the file system and the
    external state to the child's fate and the new file system and
    external state.  Nothing is assumed about it. *)
Variable popen : command → gmap str str → Ext → child * gmap str str * Ext.

(** [yaml.dump(env_vars, f, default_flow_style=False)], the text PyYAML
    writes for a dict of strings.  PyYAML is a third-party library. *)
Variable yaml_dump : gmap str str → str.

Record world := World {
  fs : gmap str str;      (** regular files: path to content *)
  ext : Ext;
  trace : list event      (** what the script has done so far *)
}.

Definition M (A : Type) : Type := world → outcome A * world.

#[global] Instance M_ret : MRet M := λ A a w, (Ret a, w).

#[global] Instance M_bind : MBind M := λ A B f m w,
  match m w with
  | (Ret a, w') => f a w'
  | (Exit code, w') => (Exit code, w')
  | (Raise e, w') => (Raise e, w')
  end.

(** [try: body finally: fin] *)
Definition try_finally {A} (body : M A) (fin : M unit) : M A := λ w,
  let '(r, w') := body w in
  match fin w' with
  | (Ret _, w'') => (r, w'')
  | (Exit code, w'') => (Exit code, w'')
  | (Raise e, w'') => (Raise e, w'')
  end.

(** [try: body except FileNotFoundError as e: handler(e)] *)
Definition try_except_FileNotFoundError {A}
    (body : M A) (handler : str → M A) : M A := λ w,
  match body w with
  | (Raise (FileNotFoundError msg), w') => handler msg w'
  | other => other
  end.

Definition emit (e : event) : M unit := λ w,
  (Ret tt, {| fs := fs w; ext := ext w; trace := trace w ++ [e] |}).

(** [print(s)] *)
Definition print (s : str) : M unit := emit (Print s).

(** [sys.exit(code)] *)
Definition sys_exit {A} (code : Z) : M A := λ w, (Exit code, w).

(** [os.path.exists(path)] *)
Definition os_path_exists (path : str) : M bool := λ w,
  (Ret (bool_decide (is_Some (fs w !! path))), w).

(** [os.remove(path)] *)
Definition os_remove (path : str) : M unit := λ w,
  match fs w !! path with
  | Some _ =>
      (Ret tt, {| fs := delete path (fs w); ext := ext w; trace := trace w |})
  | None => (Raise (FileNotFoundError path), w)
  end.

(** [with open(path, "w") as f: f.write(content)] *)
Definition write_file (path content : str) : M unit := λ w,
  (Ret tt,
   {| fs := <[path := content]> (fs w); ext := ext w; trace := trace w |}).

(** [subprocess.run(cmd, shell=isinstance(cmd, str), check=False,
    capture_output=capture, text=True)] *)
Definition subprocess_run (cmd : command) (capture : bool)
    : M CompletedProcess := λ w,
  let '(c, fs', ext') := popen cmd (fs w) (ext w) in
  let w' :=
    {| fs := fs'; ext := ext'; trace := trace w ++ [Spawn cmd capture] |} in
  match c with
  | Unstartable e => (Raise e, w')
  | Exited code out err =>
      (Ret {| returncode := code;
              stdout := if capture then Some out else None;
              stderr := if capture then Some err else None |}, w')
  end.

(** [str(x)] for [x] that is [None] or a [str]. *)
Definition str_of (o : option str) : str :=
  match o with Some s => s | None => lit "None" end.

(** ** run *)
Definition run (cmd : command) (check capture : bool)
    : M CompletedProcess :=
  try_except_FileNotFoundError
    (result ← subprocess_run cmd capture;
     if check && negb (returncode result =? 0) then
       let out :=
         Py.or_else (Py.or_else (stderr result) (stdout result))
                    (Some (lit "Command failed.")) in
       (if negb capture then print (str_of out) else mret tt);;
       sys_exit (returncode result)
     else mret result)
    (λ e,
       print (lit "Command not found: " ++ e);;
       sys_exit 1).

(** ** parse_env_file *)
Definition parse_env_file (filepath : str) : M (gmap str str) := λ w,
  match fs w !! filepath with
  | None =>
      (print (lit "Error: " ++ filepath ++ lit " not found.");;
       mret (∅ : gmap str str)) w
  | Some content => (Ret (parse_lines (Py.readlines content)), w)
  end.

(** ** main *)

Definition build_cmd : command :=
  Argv [lit "gcloud"; lit "builds"; lit "submit"; lit "--tag"; IMAGE_TAG;
        lit "--project"; PROJECT_ID; lit "."].

Definition deploy_cmd : command :=
  Argv [lit "gcloud"; lit "run"; lit "deploy"; SERVICE_NAME;
        lit "--image"; IMAGE_TAG;
        lit "--project"; PROJECT_ID;
        lit "--region"; REGION;
        lit "--platform"; lit "managed";
        lit "--allow-unauthenticated";
        lit "--port"; lit "8080";
        lit "--memory"; lit "1Gi";
        lit "--timeout"; lit "300";
        lit "--min-instances"; lit "0";
        lit "--max-instances"; lit "10";
        lit "--env-vars-file"; TEMP_ENV_YAML].

Definition describe_cmd : command :=
  Argv [lit "gcloud"; lit "run"; lit "services"; lit "describe";
        SERVICE_NAME;
        lit "--project"; PROJECT_ID; lit "--region"; REGION;
        lit "--format"; lit "value(status.url)"].

Definition msg_project : str :=
  lit "Project: " ++ PROJECT_ID ++ lit " (Limitless.ai)".
Definition msg_target : str :=
  lit "Target URL: https://openwork-217388700222.us-central1.run.app".
Definition msg_reading : str :=
  lit "Reading env from " ++ ENV_FILE ++ lit "...".
Definition msg_no_env : str :=
  lit "No environment variables found. Exiting.".
Definition msg_warning : str :=
  lit "Warning: GEMINI_API_KEY not set in .env.local. Chat API will return 500 until set.".
Definition msg_step1 : str :=
  LF :: lit "[1/3] Building image in Google Cloud Build (this may take a few minutes)...".
Definition msg_step2 : str := LF :: lit "[2/3] Deploying to Cloud Run...".
Definition msg_step3 : str := LF :: lit "[3/3] Service URL:".
Definition msg_success : str :=
  LF :: lit "Deployment successful. DevPost link should work.".
Definition msg_fallback_url : str :=
  lit "  https://openwork-217388700222.us-central1.run.app".
Definition msg_finished : str :=
  LF :: lit "Deployment finished. Check Cloud Run console if needed.".

Definition main : M unit :=
  print msg_project;;
  print msg_target;;
  print msg_reading;;
  env_vars ← parse_env_file ENV_FILE;
  (if bool_decide (env_vars = ∅) then
     print msg_no_env;;
     sys_exit 1
   else mret tt);;
  (if negb (Py.truthy_opt (env_vars !! lit "GEMINI_API_KEY")) then
     print msg_warning
   else mret tt);;
  write_file TEMP_ENV_YAML (yaml_dump env_vars);;
  try_finally
    (print msg_step1;;
     run build_cmd true false;;
     print msg_step2;;
     run deploy_cmd true false;;
     print msg_step3;;
     r ← run describe_cmd true true;
     let url := Py.strip (default [] (Py.or_else (stdout r) (Some []))) in
     if Py.truthy url then
       print (lit "  " ++ url);;
       print msg_success
     else
       print msg_fallback_url;;
       print msg_finished)
    (present ← os_path_exists TEMP_ENV_YAML;
     if (present : bool) then os_remove TEMP_ENV_YAML else mret tt).

(** The parts of [main], named for the statements below: what runs
    before the [try], the body of the [try], and the [finally] block. *)
Definition load_and_serialize : M unit :=
  print msg_project;;
  print msg_target;;
  print msg_reading;;
  env_vars ← parse_env_file ENV_FILE;
  (if bool_decide (env_vars = ∅) then
     print msg_no_env;;
     sys_exit 1
   else mret tt);;
  (if negb (Py.truthy_opt (env_vars !! lit "GEMINI_API_KEY")) then
     print msg_warning
   else mret tt);;
  write_file TEMP_ENV_YAML (yaml_dump env_vars).

Definition show_url : M unit :=
  print msg_step3;;
  r ← run describe_cmd true true;
  let url := Py.strip (default [] (Py.or_else (stdout r) (Some []))) in
  if Py.truthy url then
    print (lit "  " ++ url);;
    print msg_success
  else
    print msg_fallback_url;;
    print msg_finished.

Definition deploy_steps : M unit :=
  print msg_step1;;
  run build_cmd true false;;
  print msg_step2;;
  run deploy_cmd true false;;
  show_url.

Definition cleanup : M unit :=
  present ← os_path_exists TEMP_ENV_YAML;
  if (present : bool) then os_remove TEMP_ENV_YAML else mret tt.

End Script.

Arguments World {Ext} fs ext trace.
Arguments M_ret {Ext} {A}.
Arguments M_bind {Ext} {A B}.
Arguments try_finally {Ext A}.
Arguments try_except_FileNotFoundError {Ext A}.
Arguments emit {Ext}.
Arguments print {Ext}.
Arguments sys_exit {Ext A}.
Arguments os_path_exists {Ext}.
Arguments os_remove {Ext}.
Arguments write_file {Ext}.
Arguments subprocess_run {Ext}.
Arguments run {Ext}.
Arguments parse_env_file {Ext}.
Arguments main {Ext}.
Arguments load_and_serialize {Ext}.
Arguments show_url {Ext}.
Arguments deploy_steps {Ext}.
Arguments cleanup {Ext}.

Arguments fs {Ext} w.
Arguments ext {Ext} w.
Arguments trace {Ext} w.

(** The commands spawned in a trace, in order. *)
Definition spawned (t : list event) : list command :=
  omap (λ e, match e with Spawn cmd _ => Some cmd | Print _ => None end) t.

(** The text printed in a trace, in order. *)
Definition printed (t : list event) : list str :=
  omap (λ e, match e with Print s => Some s | Spawn _ _ => None end) t.

(** A computation that only appends to the trace. *)
Definition grows {Ext A} (m : M Ext A) : Prop :=
  ∀ w, ∃ evs, trace (m w).2 = trace w ++ evs.

(** The dict [parse_env_file(ENV_FILE)] returns on a file system. *)
Definition loaded (files : gmap str str) : gmap str str :=
  match files !! ENV_FILE with
  | Some content => parse_lines (Py.readlines content)
  | None => ∅
  end.

(** ** PyYAML on plain words

    [yaml.dump] is PyYAML's; [main] above takes it as given.  What it writes
    is recorded here for the scalars made of ASCII letters, decimal numbers,
    and words that begin with a double quote, which is all the statement
    about the serialized text needs; [None] stands for a scalar outside this
    fragment.  In block style, with sorted keys, each item is written as
    [key: value] on its own line.  A scalar is written plain when the
    resolver reads the plain text back as a string and the text does not
    begin with an indicator, and in single quotes otherwise. *)
Module Yaml.

Definition is_letter (c : ascii) : bool :=
  let n := nat_of_ascii c in
  ((65 <=? n) && (n <=? 90))%nat || ((97 <=? n) && (n <=? 122))%nat.

Definition is_digit (c : ascii) : bool :=
  let n := nat_of_ascii c in ((48 <=? n) && (n <=? 57))%nat.

(** Plain words the implicit resolvers read as a bool or as null. *)
Definition reserved : list str :=
  lit <$> ["yes"; "Yes"; "YES"; "no"; "No"; "NO";
           "true"; "True"; "TRUE"; "false"; "False"; "FALSE";
           "on"; "On"; "ON"; "off"; "Off"; "OFF";
           "null"; "Null"; "NULL"]%string.

(** [0|[1-9][0-9]*], read as an int. *)
Definition is_decimal (s : str) : bool :=
  match s with
  | [] => false
  | [c] => is_digit c
  | c :: rest => is_digit c && negb (bool_decide (c = "0"%char))
                 && forallb is_digit rest
  end.

Definition single_quoted (s : str) : str := squote :: s ++ [squote].

(** The text written for a string scalar. *)
Definition scalar (s : str) : option str :=
  match s with
  | [] => None
  | c :: rest =>
      if forallb is_letter s then
        Some (if bool_decide (s ∈ reserved) then single_quoted s else s)
      else if is_decimal s then Some (single_quoted s)
      else if bool_decide (c = dquote)
              && forallb (λ d, is_letter d || bool_decide (d = dquote)) rest
      then Some (single_quoted s)
      else None
  end.

(** Order of Python's [sorted] on strings: by code point, a proper prefix
    first. *)
Fixpoint str_leb (a b : str) : bool :=
  match a, b with
  | [], _ => true
  | _ :: _, [] => false
  | x :: a', y :: b' =>
      if (nat_of_ascii x <? nat_of_ascii y)%nat then true
      else if (nat_of_ascii y <? nat_of_ascii x)%nat then false
      else str_leb a' b'
  end.

Definition item_le (x y : str * str) : Prop := Is_true (str_leb x.1 y.1).

#[global] Instance item_le_dec : RelDecision item_le.
Proof. intros x y. unfold item_le. apply _. Defined.

(** One [key: value] line; a key of 128 characters or more is not written
    as a simple key. *)
Definition item (kv : str * str) : option str :=
  if (128 <=? length kv.1)%nat then None
  else
    k ← scalar kv.1;
    v ← scalar kv.2;
    Some (k ++ lit ": " ++ v ++ [LF]).

(** [yaml.dump(env_vars, default_flow_style=False)] *)
Definition dump (env_vars : gmap str str) : option str :=
  match merge_sort item_le (map_to_list env_vars) with
  | [] => Some (lit "{}" ++ [LF])
  | items => @concat ascii <$> mapM item items
  end.

(** The lines of a text, without their terminators. *)
Definition lines (text : str) : list str :=
  (λ l, if Py.endswith l [LF] then take (length l - 1) l else l)
    <$> Py.readlines text.

End Yaml.

(** ** The shape of a well-formed line

    A line [KEY=VALUE] as the specification describes it: optional blanks
    around the key and around the value, the value bare or wrapped in one
    pair of double or single quotes, and an optional [#] comment. *)
Inductive quoting := Bare | Double | Single.

Record env_line := EnvLine {
  lead : str;              (** blanks before the key *)
  key : str;
  pre_eq : str;            (** blanks between the key and [=] *)
  post_eq : str;           (** blanks between [=] and the value *)
  quotes : quoting;
  value : str;
  trail : str;             (** blanks after the value *)
  comment : option str     (** the text after [#], when there is a comment *)
}.

Definition wrap (q : quoting) (v : str) : str :=
  match q with
  | Bare => v
  | Double => dquote :: v ++ [dquote]
  | Single => squote :: v ++ [squote]
  end.

Definition render (l : env_line) : str :=
  lead l ++ key l ++ pre_eq l ++ "="%char :: post_eq l
  ++ wrap (quotes l) (value l) ++ trail l
  ++ match comment l with Some c => "#"%char :: c | None => [] end.

Definition blank (s : str) : bool := forallb Py.isspace s.

(** No white space at either end. *)
Definition trimmed (s : str) : bool :=
  match s with [] => true | c :: _ => negb (Py.isspace c) end
  && match last s with None => true | Some c => negb (Py.isspace c) end.

Definition lacks (c : ascii) (s : str) : bool := forallb (λ d, negb (bool_decide (d = c))) s.

(** The text starts and ends with the same quote character. *)
Definition wrapped (s : str) : bool :=
  (bool_decide (head s = Some dquote) && bool_decide (last s = Some dquote))
  || (bool_decide (head s = Some squote) && bool_decide (last s = Some squote)).

(** Blanks are blanks, the key is trimmed and has neither [=] nor [#], and
    the value has no [#]. *)
Definition shape_ok (l : env_line) : bool :=
  blank (lead l) && blank (pre_eq l) && blank (post_eq l) && blank (trail l)
  && trimmed (key l) && lacks "=" (key l) && lacks "#" (key l)
  && lacks "#" (value l).

(** A bare value is trimmed and is not itself wrapped in quotes. *)
Definition value_ok (l : env_line) : bool :=
  match quotes l with
  | Bare => trimmed (value l) && negb (wrapped (value l))
  | Double | Single => true
  end.

Definition well_formed (l : env_line) : bool := shape_ok l && value_ok l.

(** ** Concrete worlds used in the examples below *)

#[global] Instance command_eq_dec : EqDecision command.
Proof. solve_decision. Defined.

#[global] Instance event_eq_dec : EqDecision event.
Proof. solve_decision. Defined.

(** An operating system where each of the three gcloud commands exits with
    a given status and prints given text, and no other program exists. *)
Definition gcloud (build deploy describe : Z * str * str)
    (cmd : command) (files : gmap str str) (e : unit)
    : child * gmap str str * unit :=
  let exited r := Exited r.1.1 r.1.2 r.2 in
  if decide (cmd = build_cmd) then (exited build, files, e)
  else if decide (cmd = deploy_cmd) then (exited deploy, files, e)
  else if decide (cmd = describe_cmd) then (exited describe, files, e)
  else (Unstartable (FileNotFoundError (lit "[Errno 2] No such file or directory")),
        files, e).

Definition ok : Z * str * str := (0, [], []).

Definition dump_or_empty (m : gmap str str) : str := default [] (Yaml.dump m).

(** A text file given by its lines, each ended by LF. *)
Definition text (ls : list string) : str :=
  flat_map (λ l, lit l ++ [LF]) ls.

(** The word two in double quotes, and the env file with the lines A=1 and
    B= followed by that quoted word. *)
Definition quoted_two : str := dquote :: lit "two" ++ [dquote].
Definition env_text_AB : str :=
  lit "A=1" ++ [LF] ++ lit "B=" ++ quoted_two ++ [LF].

(** A project directory holding only [.env.local] with the given text. *)
Definition project (env_text : str) : world unit :=
  World {[ ENV_FILE := env_text ]} tt [].

(** The final exit status, the commands spawned, and whether the temporary
    file is still there, for one run. *)
Definition summary (r : outcome unit * world unit)
    : Z * list command * bool :=
  (exit_status r.1, spawned (trace r.2),
   bool_decide (is_Some (fs r.2 !! TEMP_ENV_YAML))).

(** The line as the loop body sees it after trimming and cutting the
    comment, when it goes on to look for [=]. *)
Definition cut_line (line : str) : str :=
  let line := Py.strip line in
  if Py.contains (lit "#") line
  then Py.strip (default [] (head (Py.split1 "#" line)))
  else line.

(** * Properties *)

(** ** Strings *)
Section PyFacts.

Implicit Types (s p x y : str) (c : ascii).

Lemma blank_Forall s : blank s = true ↔ Forall (λ c, Py.isspace c = true) s.
Proof.
  unfold blank. rewrite forallb_forall, Forall_forall.
  split; intros H c Hc; apply H; by apply list_elem_of_In.
Qed.

Lemma blank_app s p : blank (s ++ p) = blank s && blank p.
Proof. unfold blank. apply forallb_app. Qed.

Lemma lacks_app c s p : lacks c (s ++ p) = lacks c s && lacks c p.
Proof. unfold lacks. apply forallb_app. Qed.

Lemma lacks_not_elem c s : lacks c s = true ↔ c ∉ s.
Proof.
  unfold lacks. induction s as [|d s IH]; simpl.
  - split; [intros _; apply not_elem_of_nil | done].
  - rewrite andb_true_iff, IH, not_elem_of_cons, negb_true_iff,
      bool_decide_eq_false.
    split; intros [Hd Hs]; split; congruence.
Qed.

Lemma blank_lacks c s : Py.isspace c = false → blank s = true → lacks c s = true.
Proof.
  intros Hc Hs. apply lacks_not_elem. intros Hin.
  apply blank_Forall in Hs. rewrite Forall_forall in Hs.
  specialize (Hs c Hin). congruence.
Qed.

Lemma lstrip_blank s : blank s = true → Py.lstrip s = [].
Proof.
  induction s as [|c s IH]; simpl; [done|].
  intros [Hc Hs]%andb_true_iff. rewrite Hc. auto.
Qed.

Lemma lstrip_app_nonspace x c y :
  Py.isspace c = false → Py.lstrip (x ++ c :: y) = Py.lstrip x ++ c :: y.
Proof.
  intros Hc. induction x as [|d x IH]; simpl.
  - by rewrite Hc.
  - destruct (Py.isspace d); auto.
Qed.

Lemma lstrip_idemp s : Py.lstrip (Py.lstrip s) = Py.lstrip s.
Proof.
  induction s as [|c s IH]; simpl; [done|].
  destruct (Py.isspace c) eqn:Hc; [done|]. simpl. by rewrite Hc.
Qed.

Lemma lstrip_suffix s : ∃ p, s = p ++ Py.lstrip s.
Proof.
  induction s as [|c s [p Hp]]; simpl; [by exists []|].
  destruct (Py.isspace c).
  - exists (c :: p). simpl. by f_equal.
  - by exists [].
Qed.

Lemma lacks_lstrip c s : lacks c s = true → lacks c (Py.lstrip s) = true.
Proof.
  destruct (lstrip_suffix s) as [p Hp]. rewrite Hp at 1.
  rewrite lacks_app. by intros [_ ?]%andb_true_iff.
Qed.

Lemma rstrip_blank s : blank s = true → Py.rstrip s = [].
Proof.
  intros Hs. unfold Py.rstrip. rewrite lstrip_blank; [done|].
  unfold blank in *. rewrite forallb_forall in *.
  intros c Hc. apply Hs. by apply in_rev.
Qed.

Lemma rstrip_app_nonspace x c y :
  Py.isspace c = false → Py.rstrip (x ++ c :: y) = x ++ c :: Py.rstrip y.
Proof.
  intros Hc. unfold Py.rstrip.
  rewrite rev_app_distr. simpl. rewrite <- app_assoc. simpl.
  rewrite lstrip_app_nonspace by done.
  rewrite rev_app_distr. simpl. rewrite rev_involutive.
  by rewrite <- app_assoc.
Qed.

Lemma strip_app_nonspace x c y :
  Py.isspace c = false →
  Py.strip (x ++ c :: y) = Py.lstrip x ++ c :: Py.rstrip y.
Proof.
  intros Hc. unfold Py.strip.
  by rewrite lstrip_app_nonspace, rstrip_app_nonspace.
Qed.

Lemma trimmed_cases s :
  trimmed s = true →
  s = [] ∨ ∃ c x d, Py.isspace c = false ∧ Py.isspace d = false
                    ∧ (c :: x = s) ∧ ∃ u, s = u ++ [d].
Proof.
  unfold trimmed. destruct s as [|c x]; [by left|].
  intros [Hc Hl]%andb_true_iff. right.
  destruct (last (c :: x)) as [d|] eqn:Hd.
  - apply last_Some in Hd as [u Hu].
    exists c, x, d. repeat split; try by apply negb_true_iff. by exists u.
  - by apply last_None in Hd.
Qed.

(** Stripping a trimmed text padded with blanks gives the text back. *)
Lemma strip_pad p s p' :
  blank p = true → blank p' = true → trimmed s = true →
  Py.strip (p ++ s ++ p') = s.
Proof.
  intros Hp Hp' Hs.
  destruct (trimmed_cases s Hs) as [->|(c & x & d & Hc & Hd & <- & u & Hu)].
  - simpl. unfold Py.strip. rewrite lstrip_blank; [done|].
    by rewrite blank_app, Hp, Hp'.
  - unfold Py.strip. simpl.
    rewrite lstrip_app_nonspace, lstrip_blank by done. simpl.
    change (c :: x ++ p') with ((c :: x) ++ p'). rewrite Hu.
    rewrite <- app_assoc. simpl.
    by rewrite rstrip_app_nonspace, rstrip_blank.
Qed.

Lemma startswith_char s q :
  Py.startswith s [q] = bool_decide (head s = Some q).
Proof.
  destruct s as [|d s]; simpl; [done|].
  case_decide as Hq.
  - subst d. rewrite bool_decide_eq_true_2 by done. by destruct s.
  - rewrite bool_decide_eq_false_2; [done|]. by intros [= ->].
Qed.

Lemma head_rev s : head (rev s) = last s.
Proof.
  destruct (last s) as [d|] eqn:Hd.
  - apply last_Some in Hd as [u ->]. by rewrite rev_app_distr.
  - by apply last_None in Hd as ->.
Qed.

Lemma endswith_char s q :
  Py.endswith s [q] = bool_decide (last s = Some q).
Proof. unfold Py.endswith. simpl rev. by rewrite startswith_char, head_rev. Qed.

Lemma contains_char c s : Py.contains [c] s = bool_decide (c ∈ s).
Proof.
  induction s as [|d s IH].
  - symmetry. apply bool_decide_eq_false_2, not_elem_of_nil.
  - cbn [Py.contains]. rewrite IH, startswith_char. simpl.
    destruct (decide (c = d)) as [->|Hne].
    + rewrite (bool_decide_eq_true_2 (Some d = Some d)) by done.
      symmetry. apply bool_decide_eq_true_2, list_elem_of_here.
    + rewrite (bool_decide_eq_false_2 (Some d = Some c)) by congruence.
      simpl. apply bool_decide_ext. rewrite elem_of_cons.
      split; [by right|]. by intros [?|?].
Qed.

Lemma split1_first c x y : c ∉ x → Py.split1 c (x ++ c :: y) = [x; y].
Proof.
  induction x as [|d x IH]; simpl; intros Hx.
  - by rewrite decide_True.
  - apply not_elem_of_cons in Hx as [Hd Hx].
    rewrite decide_False by done. by rewrite IH.
Qed.

Lemma slice_inner q v q' : Py.slice (q :: v ++ [q']) 1 (-1) = v.
Proof.
  unfold Py.slice, Py.clamp. cbn [length]. rewrite length_app. simpl.
  replace (Z.to_nat _) with (length v) by lia.
  replace (Z.to_nat _) with 1%nat by lia.
  simpl. apply take_app_length.
Qed.

(** Removing one pair of quotes. *)
Lemma strip_quotes_wrap q v :
  q ≠ Bare → strip_quotes (wrap q v) = v.
Proof.
  intros Hq. unfold strip_quotes.
  assert (Hl : ∀ a b, last (a :: v ++ [b]) = Some b)
    by (intros a b; apply (last_snoc b (a :: v))).
  destruct q; [done| |]; cbn [wrap];
    rewrite !startswith_char, !endswith_char, !Hl; cbn [head].
  - rewrite !bool_decide_eq_true_2 by done. simpl. apply slice_inner.
  - rewrite (bool_decide_eq_false_2 (Some squote = Some dquote)) by done.
    rewrite !bool_decide_eq_true_2 by done. simpl. apply slice_inner.
Qed.

(** A text that is not wrapped in quotes is kept as it is. *)
Lemma strip_quotes_bare v : wrapped v = false → strip_quotes v = v.
Proof.
  unfold wrapped, strip_quotes.
  rewrite !startswith_char, !endswith_char. by intros ->.
Qed.

(** A lone quote character is removed. *)
Lemma strip_quotes_lone q :
  q = dquote ∨ q = squote → strip_quotes [q] = [].
Proof. by intros [-> | ->]. Qed.

End PyFacts.

(** ** The parser on one line *)
Section LineFacts.

Implicit Types (s x y : str) (c : ascii).

Lemma lacks_rstrip c s : lacks c s = true → lacks c (Py.rstrip s) = true.
Proof.
  rewrite !lacks_not_elem. intros Hs Hin. apply Hs.
  unfold Py.rstrip in Hin.
  apply list_elem_of_In, in_rev, list_elem_of_In in Hin.
  destruct (lstrip_suffix (rev s)) as [p Hp].
  apply list_elem_of_In, in_rev. rewrite Hp.
  apply list_elem_of_In, elem_of_app. by right.
Qed.

Lemma head_app_cons_ne c x d y :
  lacks c x = true → c ≠ d → head (x ++ d :: y) ≠ Some c.
Proof.
  destruct x as [|e x]; simpl; [congruence|].
  intros [He _]%andb_true_iff Hne [= ->].
  by rewrite bool_decide_eq_true_2 in He.
Qed.

Lemma truthy_app_cons x c y : Py.truthy (x ++ c :: y) = true.
Proof. by destruct x. Qed.

(** What the loop body stores for a line [A=B] or [A=B#comment], when
    [A] has no [=] and neither [A] nor [B] has a [#]. *)
Lemma line_entry_shape (A B : str) (sfx : option str) :
  lacks "=" A = true → lacks "#" A = true → lacks "#" B = true →
  line_entry
    (A ++ "="%char :: B
       ++ match sfx with Some c => "#"%char :: c | None => [] end)
  = Some (Py.strip A, strip_quotes (Py.strip (Py.rstrip B))).
Proof.
  intros HAeq HAhash HBhash.
  pose proof (lacks_lstrip _ _ HAeq) as HLeq.
  pose proof (lacks_lstrip _ _ HAhash) as HLhash.
  pose proof (lacks_rstrip _ _ HBhash) as HRhash.
  assert (Hcore : ∀ line,
    Py.contains (lit "=") line = true →
    Py.split1 "=" line = [Py.lstrip A; Py.rstrip B] →
    match Py.split1 "=" line with
    | [key; value] =>
        Some (Py.strip key, strip_quotes (Py.strip value))
    | _ => None
    end = Some (Py.strip A, strip_quotes (Py.strip (Py.rstrip B)))).
  { intros line _ ->. unfold Py.strip at 1. by rewrite lstrip_idemp. }
  assert (Hmid : Py.split1 "=" (Py.lstrip A ++ "="%char :: Py.rstrip B)
                 = [Py.lstrip A; Py.rstrip B]).
  { apply split1_first. by apply lacks_not_elem. }
  assert (Hhas : Py.contains (lit "=") (Py.lstrip A ++ "="%char :: Py.rstrip B)
                 = true).
  { change (lit "=") with ["="%char]. rewrite contains_char.
    apply bool_decide_eq_true_2, elem_of_app. right. apply list_elem_of_here. }
  unfold line_entry. destruct sfx as [cm|].
  - replace (A ++ "="%char :: B ++ "#"%char :: cm)
      with ((A ++ "="%char :: B) ++ "#"%char :: cm)
      by (by rewrite <- app_assoc).
    rewrite strip_app_nonspace, lstrip_app_nonspace by done.
    rewrite truthy_app_cons. simpl negb. simpl orb.
    change (lit "#") with ["#"%char].
    rewrite startswith_char, contains_char.
    rewrite bool_decide_eq_false_2; last first.
    { rewrite <- app_assoc. simpl. by apply head_app_cons_ne. }
    rewrite bool_decide_eq_true_2
      by (apply elem_of_app; right; apply list_elem_of_here).
    rewrite split1_first; last first.
    { apply lacks_not_elem. rewrite lacks_app, HLhash. simpl.
      by rewrite HBhash. }
    simpl head. simpl default.
    rewrite strip_app_nonspace, lstrip_idemp by done.
    rewrite Hhas. by apply Hcore.
  - rewrite app_nil_r.
    rewrite strip_app_nonspace by done.
    rewrite truthy_app_cons. simpl negb. simpl orb.
    change (lit "#") with ["#"%char].
    rewrite startswith_char, contains_char.
    rewrite bool_decide_eq_false_2 by (by apply head_app_cons_ne).
    rewrite bool_decide_eq_false_2; last first.
    { apply lacks_not_elem. rewrite lacks_app, HLhash. simpl.
      by rewrite HRhash. }
    rewrite Hhas. by apply Hcore.
Qed.

End LineFacts.

(** ** The monad and the runner *)
Section RunFacts.

Context {Ext : Type}.
Variable popen : command → gmap str str → Ext → child * gmap str str * Ext.

Implicit Types (w : world Ext) (cmd : command).

Lemma world_eta w : World (fs w) (ext w) (trace w) = w.
Proof. by destruct w. Qed.

Lemma bind_run {A B} (m : M Ext A) (f : A → M Ext B) w :
  (m ≫= f) w =
  match m w with
  | (Ret a, w') => f a w'
  | (Exit code, w') => (Exit code, w')
  | (Raise e, w') => (Raise e, w')
  end.
Proof. reflexivity. Qed.

Lemma bind_assoc {A B C} (m : M Ext A) (f : A → M Ext B) (g : B → M Ext C) w :
  ((m ≫= f) ≫= g) w = (m ≫= (λ a, f a ≫= g)) w.
Proof. rewrite !bind_run. by destruct (m w) as [[a|code|e] w']. Qed.

Lemma print_run s w :
  print s w = (Ret tt, World (fs w) (ext w) (trace w ++ [Print s])).
Proof. reflexivity. Qed.

Lemma ret_run {A} (a : A) w : (mret a : M Ext A) w = (Ret a, w).
Proof. reflexivity. Qed.

(** What [run] with [check=True] does, by the fate of the child. *)
Lemma run_check cmd capture w c fs' ext' :
  popen cmd (fs w) (ext w) = (c, fs', ext') →
  run popen cmd true capture w =
  match c with
  | Unstartable (FileNotFoundError m) =>
      (Exit 1,
       World fs' ext'
         (trace w ++ [Spawn cmd capture;
                      Print (lit "Command not found: " ++ m)]))
  | Unstartable (OSError m) =>
      (Raise (OSError m), World fs' ext' (trace w ++ [Spawn cmd capture]))
  | Exited code out err =>
      if code =? 0 then
        (Ret {| returncode := code;
                stdout := if capture then Some out else None;
                stderr := if capture then Some err else None |},
         World fs' ext' (trace w ++ [Spawn cmd capture]))
      else
        (Exit code,
         World fs' ext'
           (trace w ++ Spawn cmd capture
              :: if capture then [] else [Print (lit "Command failed.")]))
  end.
Proof.
  intros Hp. unfold run, try_except_FileNotFoundError.
  rewrite bind_run. unfold subprocess_run. rewrite Hp.
  destruct c as [[m|m]|code out err]; simpl.
  - rewrite bind_run, print_run. simpl. by rewrite <- app_assoc.
  - done.
  - destruct (code =? 0); simpl; [done|].
    rewrite bind_run. destruct capture; simpl; [done|].
    by rewrite <- app_assoc.
Qed.

(** Whatever happens, [run] records the spawn first and only adds to
    the trace. *)
Lemma run_trace cmd check capture w :
  ∃ evs, trace (run popen cmd check capture w).2
         = trace w ++ Spawn cmd capture :: evs.
Proof.
  unfold run, try_except_FileNotFoundError.
  rewrite bind_run. unfold subprocess_run.
  destruct (popen cmd (fs w) (ext w)) as [[c fs'] ext'].
  destruct c as [[m|m]|code out err]; simpl.
  - rewrite <- app_assoc. by eexists.
  - by exists [].
  - destruct (check && negb (code =? 0)); simpl; [|by exists []].
    destruct capture; simpl; [by exists []|].
    rewrite <- app_assoc. by eexists.
Qed.

Lemma cleanup_run w :
  cleanup w =
  (Ret tt, World (delete TEMP_ENV_YAML (fs w)) (ext w) (trace w)).
Proof.
  unfold cleanup. rewrite bind_run. unfold os_path_exists, os_remove.
  destruct (fs w !! TEMP_ENV_YAML) as [old|] eqn:Hold.
  - rewrite bool_decide_eq_true_2 by by eexists.
    by rewrite Hold.
  - rewrite bool_decide_eq_false_2 by (by intros [? ?]).
    rewrite delete_id by done. by rewrite world_eta.
Qed.

(** The [finally] block removes the temporary file whatever the outcome of
    the [try] block. *)
Lemma try_finally_cleanup {A} (body : M Ext A) w :
  try_finally body cleanup w =
  ((body w).1,
   World (delete TEMP_ENV_YAML (fs (body w).2)) (ext (body w).2)
     (trace (body w).2)).
Proof.
  unfold try_finally. destruct (body w) as [r w'].
  by rewrite cleanup_run.
Qed.

Lemma parse_env_file_run path w :
  parse_env_file path w =
  match fs w !! path with
  | Some content => (Ret (parse_lines (Py.readlines content)), w)
  | None =>
      (Ret ∅,
       World (fs w) (ext w)
         (trace w ++ [Print (lit "Error: " ++ path ++ lit " not found.")]))
  end.
Proof. unfold parse_env_file. by destruct (fs w !! path). Qed.

End RunFacts.

(** ** The orchestrator *)
Section MainFacts.

Context {Ext : Type}.
Variable popen : command → gmap str str → Ext → child * gmap str str * Ext.
Variable yaml_dump : gmap str str → str.

Implicit Types (w : world Ext).

Lemma parse_env_file_loaded w :
  (parse_env_file ENV_FILE w).1 = Ret (loaded (fs w)).
Proof.
  rewrite parse_env_file_run. unfold loaded.
  by destruct (fs w !! ENV_FILE).
Qed.

(** With a non-empty dict, the part before the [try] prints three lines,
    possibly the warning, and writes the temporary file. *)
Lemma load_nonempty w :
  loaded (fs w) ≠ ∅ →
  load_and_serialize yaml_dump w =
  (Ret tt,
   World (<[TEMP_ENV_YAML := yaml_dump (loaded (fs w))]> (fs w)) (ext w)
     (trace w
        ++ [Print msg_project; Print msg_target; Print msg_reading]
        ++ if negb (Py.truthy_opt (loaded (fs w) !! lit "GEMINI_API_KEY"))
           then [Print msg_warning] else [])).
Proof.
  intros Hne. unfold load_and_serialize.
  do 3 (rewrite bind_run, print_run; cbv iota beta).
  rewrite bind_run, parse_env_file_run. cbn [fs ext trace].
  unfold loaded in *. destruct (fs w !! ENV_FILE) as [content|]; [|done].
  set (env := parse_lines (Py.readlines content)) in *.
  rewrite bind_run. rewrite bool_decide_eq_false_2 by done.
  unfold mret at 1, M_ret at 1. cbv iota beta.
  rewrite bind_run.
  destruct (negb (Py.truthy_opt (env !! lit "GEMINI_API_KEY"))).
  - rewrite print_run. unfold write_file. cbn [fs ext trace].
    by rewrite <- !app_assoc.
  - unfold mret, M_ret, write_file. cbn [fs ext trace].
    by rewrite <- !app_assoc.
Qed.

(** With an empty dict, it prints and exits with status 1 before
    anything is written or spawned. *)
Lemma load_empty w :
  loaded (fs w) = ∅ →
  load_and_serialize yaml_dump w =
  (Exit 1,
   World (fs w) (ext w)
     (trace w
        ++ [Print msg_project; Print msg_target; Print msg_reading]
        ++ match fs w !! ENV_FILE with
           | Some _ => []
           | None =>
               [Print (lit "Error: " ++ ENV_FILE ++ lit " not found.")]
           end
        ++ [Print msg_no_env])).
Proof.
  intros He. unfold load_and_serialize.
  do 3 (rewrite bind_run, print_run; cbv iota beta).
  rewrite bind_run, parse_env_file_run. cbn [fs ext trace].
  unfold loaded in *. destruct (fs w !! ENV_FILE) as [content|].
  - rewrite He. rewrite bind_run. rewrite bool_decide_eq_true_2 by done.
    rewrite bind_run, print_run. unfold sys_exit. cbn [fs ext trace].
    by rewrite <- !app_assoc.
  - rewrite bind_run. rewrite bool_decide_eq_true_2 by done.
    rewrite bind_run, print_run. unfold sys_exit. cbn [fs ext trace].
    by rewrite <- !app_assoc.
Qed.

(** [main] is its three parts in sequence. *)
Lemma main_run w :
  main popen yaml_dump w =
  (load_and_serialize yaml_dump
     ≫= λ _, try_finally (deploy_steps popen) cleanup) w.
Proof.
  unfold main, load_and_serialize.
  do 3 (rewrite bind_assoc; rewrite !bind_run, !print_run;
        cbn [fs ext trace]; cbv iota beta).
  rewrite bind_assoc. rewrite !bind_run.
  destruct (parse_env_file ENV_FILE _) as [[env|code|e] w1]; [|done..].
  rewrite bind_assoc. rewrite !bind_run.
  destruct (bool_decide (env = ∅)).
  - by rewrite !bind_run, !print_run.
  - rewrite !ret_run. cbv iota beta.
    rewrite bind_assoc. rewrite !bind_run.
    destruct (negb _).
    + rewrite !print_run. cbv iota beta. by rewrite bind_run.
    + rewrite !ret_run. cbv iota beta. by rewrite bind_run.
Qed.

Lemma grows_ret {A} (a : A) : grows (mret a : M Ext A).
Proof. intros w. exists []. by rewrite app_nil_r. Qed.

Lemma grows_exit {A} code : grows (sys_exit code : M Ext A).
Proof. intros w. exists []. by rewrite app_nil_r. Qed.

Lemma grows_print s : grows (print s : M Ext unit).
Proof. intros w. by exists [Print s]. Qed.

Lemma grows_run cmd check capture : grows (run popen cmd check capture).
Proof.
  intros w. destruct (run_trace popen cmd check capture w) as [evs Hevs].
  by eexists.
Qed.

Lemma grows_bind {A B} (m : M Ext A) (f : A → M Ext B) :
  grows m → (∀ a, grows (f a)) → grows (m ≫= f).
Proof.
  intros Hm Hf w. rewrite bind_run.
  destruct (Hm w) as [evs Hevs].
  destruct (m w) as [[a|code|e] w1]; simpl in *; [|by eexists..].
  destruct (Hf a w1) as [evs' Hevs'].
  exists (evs ++ evs'). by rewrite Hevs', Hevs, app_assoc.
Qed.

Lemma grows_show_url : grows (show_url popen).
Proof.
  unfold show_url.
  apply grows_bind; [apply grows_print|intros _].
  apply grows_bind; [apply grows_run|intros r]. cbv zeta.
  destruct (Py.truthy _);
    (apply grows_bind; [apply grows_print|intros _; apply grows_print]).
Qed.

(** The [try] block first announces the build and spawns it. *)
Lemma deploy_steps_begin w :
  ∃ rest, trace (deploy_steps popen w).2
          = trace w ++ Print msg_step1 :: Spawn build_cmd false :: rest.
Proof.
  unfold deploy_steps. rewrite bind_run, print_run. cbv iota beta.
  assert (Hrest : ∀ a : CompletedProcess,
            grows (print msg_step2;; run popen deploy_cmd true false;;
                   show_url popen)).
  { intros _. apply grows_bind; [apply grows_print|intros _].
    apply grows_bind; [apply grows_run|intros _]. apply grows_show_url. }
  rewrite bind_run.
  destruct (run_trace popen build_cmd true false
              (World (fs w) (ext w) (trace w ++ [Print msg_step1])))
    as [evs Hevs].
  destruct (run popen build_cmd true false _) as [[a|code|e] w1];
    cbn [fst snd trace] in *.
  - destruct (Hrest a w1) as [evs' Hevs'].
    rewrite Hevs', Hevs. rewrite <- !app_assoc. simpl. by eexists.
  - rewrite Hevs. rewrite <- !app_assoc. simpl. by eexists.
  - rewrite Hevs. rewrite <- !app_assoc. simpl. by eexists.
Qed.

(** A failing build ends the [try] block at once. *)
Lemma deploy_steps_build_fails w code out err fs' ext' :
  popen build_cmd (fs w) (ext w) = (Exited code out err, fs', ext') →
  code ≠ 0 →
  deploy_steps popen w =
  (Exit code,
   World fs' ext'
     (trace w ++ [Print msg_step1; Spawn build_cmd false;
                  Print (lit "Command failed.")])).
Proof.
  intros Hp Hcode. unfold deploy_steps.
  rewrite bind_run, print_run. cbv iota beta.
  rewrite bind_run.
  rewrite (run_check popen build_cmd false (World (fs w) (ext w) _)
             _ fs' ext' Hp).
  destruct (code =? 0) eqn:Hz; [by apply Z.eqb_eq in Hz|].
  cbn [trace]. by rewrite <- app_assoc.
Qed.

Lemma url_of_stdout out :
  Py.strip (default [] (Py.or_else (Some out) (Some []))) = Py.strip out.
Proof. by destruct out. Qed.

(** When the three commands exit with status 0, the [try] block runs to
    its end and prints the URL that [describe] wrote, or the fallback. *)
Lemma deploy_steps_succeed w o1 e1 fs1 ext1 o2 e2 fs2 ext2 out err fs3 ext3 :
  popen build_cmd (fs w) (ext w) = (Exited 0 o1 e1, fs1, ext1) →
  popen deploy_cmd fs1 ext1 = (Exited 0 o2 e2, fs2, ext2) →
  popen describe_cmd fs2 ext2 = (Exited 0 out err, fs3, ext3) →
  deploy_steps popen w =
  (Ret tt,
   World fs3 ext3
     (trace w
        ++ [Print msg_step1; Spawn build_cmd false;
            Print msg_step2; Spawn deploy_cmd false;
            Print msg_step3; Spawn describe_cmd true]
        ++ match Py.strip out with
           | [] => [Print msg_fallback_url; Print msg_finished]
           | url => [Print (lit "  " ++ url); Print msg_success]
           end)).
Proof.
  intros H1 H2 H3. unfold deploy_steps, show_url.
  rewrite bind_run, print_run. cbv iota beta.
  rewrite bind_run, (run_check popen build_cmd false (World (fs w) (ext w) _)
                       _ fs1 ext1 H1).
  cbn [Z.eqb fs ext trace].
  rewrite bind_run, print_run. cbv iota beta. cbn [fs ext trace].
  rewrite bind_run, (run_check popen deploy_cmd false (World fs1 ext1 _)
                       _ fs2 ext2 H2).
  cbn [Z.eqb fs ext trace].
  rewrite bind_run, print_run. cbv iota beta. cbn [fs ext trace].
  rewrite bind_run, (run_check popen describe_cmd true (World fs2 ext2 _)
                       _ fs3 ext3 H3).
  cbn [Z.eqb fs ext trace stdout]. cbv zeta.
  rewrite url_of_stdout.
  destruct (Py.strip out) as [|c url]; cbn [Py.truthy];
    rewrite bind_run, !print_run; cbv iota beta; cbn [fs ext trace];
    by rewrite <- !app_assoc.
Qed.

End MainFacts.

(** ** The loop over the lines *)
Section LoopFacts.

Implicit Types (env : gmap str str) (k v : str).

Lemma parse_line_other env ln k :
  fst <$> line_entry ln ≠ Some k → parse_line env ln !! k = env !! k.
Proof.
  unfold parse_line. destruct (line_entry ln) as [[k' v']|]; [|done].
  simpl. intros Hk. apply lookup_insert_ne. congruence.
Qed.

Lemma parse_lines_other ls env k :
  Forall (λ l, fst <$> line_entry l ≠ Some k) ls →
  foldl parse_line env ls !! k = env !! k.
Proof.
  intros Hls. revert env.
  induction Hls as [|l ls Hl _ IH]; intros env; simpl; [done|].
  by rewrite IH, parse_line_other.
Qed.

(** The entry of a line is still there at the end of the loop when no
    later line stores the same key. *)
Lemma parse_lines_last before ln after k v :
  line_entry ln = Some (k, v) →
  Forall (λ l, fst <$> line_entry l ≠ Some k) after →
  parse_lines (before ++ ln :: after) !! k = Some v.
Proof.
  intros Hln Hafter. unfold parse_lines.
  rewrite foldl_app. simpl. rewrite parse_lines_other by done.
  unfold parse_line. rewrite Hln. apply lookup_insert_eq.
Qed.

(** The loop body on a line of the shape [render l]. *)
Lemma render_entry (l : env_line) :
  shape_ok l = true →
  trimmed (wrap (quotes l) (value l)) = true →
  line_entry (render l)
  = Some (key l, strip_quotes (wrap (quotes l) (value l))).
Proof.
  unfold shape_ok. rewrite !andb_true_iff.
  intros [[[[[[[Hlead Hpre] Hpost] Htrail] Hkey] Hkeq] Hkhash] Hvhash] Htext.
  assert (Heq : Py.isspace "=" = false) by done.
  assert (Hhash : Py.isspace "#" = false) by done.
  assert (Hwrap : lacks "#" (wrap (quotes l) (value l)) = true).
  { destruct (quotes l); simpl; [done| |];
      rewrite lacks_app, Hvhash; done. }
  unfold render.
  replace (lead l ++ key l ++ pre_eq l ++ "="%char :: post_eq l
             ++ wrap (quotes l) (value l) ++ trail l
             ++ match comment l with
                | Some c => "#"%char :: c
                | None => []
                end)
    with ((lead l ++ key l ++ pre_eq l) ++ "="%char
            :: (post_eq l ++ wrap (quotes l) (value l) ++ trail l)
            ++ match comment l with
               | Some c => "#"%char :: c
               | None => []
               end)
    by (by rewrite <- !app_assoc).
  rewrite line_entry_shape.
  - rewrite strip_pad by done.
    enough (Py.strip
              (Py.rstrip (post_eq l ++ wrap (quotes l) (value l) ++ trail l))
            = wrap (quotes l) (value l)) as -> by done.
    destruct (trimmed_cases _ Htext)
      as [Hnil|(c & x & d & Hc & Hd & Hcx & u & Hu)].
    + rewrite Hnil. simpl. rewrite rstrip_blank; [done|].
      by rewrite blank_app, Hpost, Htrail.
    + rewrite Hu at 1. rewrite <- !app_assoc. simpl.
      rewrite app_assoc, rstrip_app_nonspace, rstrip_blank by done.
      rewrite <- app_assoc. simpl. rewrite <- Hu.
      rewrite <- (app_nil_r (wrap _ _)) at 1. by apply strip_pad.
  - rewrite !lacks_app, Hkeq, !blank_lacks; done.
  - rewrite !lacks_app, Hkhash, !blank_lacks; done.
  - rewrite !lacks_app, Hwrap, !blank_lacks; done.
Qed.

End LoopFacts.

(** * The parser: what is stored for a line *)





(** C9: when several lines of the file store the same key, the dict that
    [parse_env_file] returns binds the key to the value of the last of
    them: the entry of a line survives exactly when no later line stores
    its key. *)
Theorem last_line_wins {Ext} (path content : str) (w : world Ext)
    (before : list str) (ln : str) (after : list str) (k v : str) :
  fs w !! path = Some content →
  Py.readlines content = before ++ ln :: after →
  line_entry ln = Some (k, v) →
  Forall (λ l, fst <$> line_entry l ≠ Some k) after →
  ∃ env_vars, parse_env_file path w = (Ret env_vars, w)
              ∧ env_vars !! k = Some v.
Proof.
  intros Hfile Hlines Hln Hafter.
  exists (parse_lines (Py.readlines content)). split.
  - by rewrite parse_env_file_run, Hfile.
  - rewrite Hlines. by apply parse_lines_last.
Qed.

Lemma last_line_wins_witness :
  ∃ env_vars,
    parse_env_file ENV_FILE (project (text ["K=1"; "J=5"; "K=3"; "L=4"]%string))
    = (Ret env_vars, project (text ["K=1"; "J=5"; "K=3"; "L=4"]%string))
    ∧ env_vars !! lit "K" = Some (lit "3").
Proof.
  apply (last_line_wins ENV_FILE
           (text ["K=1"; "J=5"; "K=3"; "L=4"]%string) _
           [lit "K=1" ++ [LF]; lit "J=5" ++ [LF]] (lit "K=3" ++ [LF])
           [lit "L=4" ++ [LF]]).
  - reflexivity.
  - reflexivity.
  - reflexivity.
  - compute_done.
Defined.

(** * The runner and the orchestrator *)
Section Orchestration.

Context {Ext : Type}.
Variable popen : command → gmap str str → Ext → child * gmap str str * Ext.
Variable yaml_dump : gmap str str → str.

Implicit Types (w : world Ext).

(** C1: in every run where the parsed dict is not empty, the temporary
    YAML file is written before the [try] block and is absent from the file
    system when [main] ends, however it ends: normally, by [sys.exit] after
    a failure of the build, the deploy or the describe command, or by an
    exception.  Nothing is assumed about what the commands do. *)
Theorem temp_file_absent_at_exit w :
  loaded (fs w) ≠ ∅ →
  fs (load_and_serialize yaml_dump w).2 !! TEMP_ENV_YAML
    = Some (yaml_dump (loaded (fs w)))
  ∧ fs (main popen yaml_dump w).2 !! TEMP_ENV_YAML = None.
Proof.
  intros Hne. split.
  - rewrite load_nonempty by done. apply lookup_insert_eq.
  - rewrite main_run, bind_run, load_nonempty by done.
    rewrite try_finally_cleanup. apply lookup_delete_eq.
Qed.



(** C6: [parse_env_file] on a path that does not exist prints an error
    and returns the empty dict, without raising; and whenever the dict
    parsed from the env file is empty, because the file is missing or
    because it has no entry, [main] ends by [sys.exit(1)], before any file
    is written and any command is spawned. *)
Theorem missing_or_empty_env_exits_1 :
  (∀ path w,
     fs w !! path = None →
     parse_env_file path w
     = (Ret ∅,
        World (fs w) (ext w)
          (trace w ++ [Print (lit "Error: " ++ path ++ lit " not found.")])))
  ∧ (∀ w,
       (parse_env_file ENV_FILE w).1 = Ret ∅ →
       ∃ evs,
         main popen yaml_dump w
         = (Exit 1, World (fs w) (ext w) (trace w ++ evs))
         ∧ exit_status (main popen yaml_dump w).1 = 1
         ∧ spawned evs = []
         ∧ last (printed evs) = Some msg_no_env).
Proof.
  split.
  - intros path w Hnone. by rewrite parse_env_file_run, Hnone.
  - intros w Hempty. rewrite parse_env_file_loaded in Hempty.
    injection Hempty as Hempty.
    rewrite main_run, bind_run, load_empty by done.
    cbn [fst exit_status]. eexists. split; [done|]. split; [done|].
    by destruct (fs w !! ENV_FILE).
Qed.

(** C7: when the parsed dict is not empty and [GEMINI_API_KEY] is absent
    from it or bound to the empty string, [main] prints the warning and goes
    on: the next things it does are to announce the build and to spawn the
    build command. *)
Theorem missing_api_key_warns_then_builds w :
  loaded (fs w) ≠ ∅ →
  loaded (fs w) !! lit "GEMINI_API_KEY" = None
  ∨ loaded (fs w) !! lit "GEMINI_API_KEY" = Some [] →
  ∃ rest,
    trace (main popen yaml_dump w).2
    = trace w
      ++ [Print msg_project; Print msg_target; Print msg_reading;
          Print msg_warning; Print msg_step1; Spawn build_cmd false]
      ++ rest.
Proof.
  intros Hne Hkey.
  rewrite main_run, bind_run, load_nonempty by done.
  rewrite try_finally_cleanup. cbn [snd trace].
  match goal with
  | |- context [deploy_steps popen ?w1] =>
      destruct (deploy_steps_begin popen w1) as [rest ->]
  end.
  cbn [trace]. exists rest.
  replace (negb (Py.truthy_opt (loaded (fs w) !! lit "GEMINI_API_KEY")))
    with true by (by destruct Hkey as [-> | ->]).
  by rewrite <- !app_assoc.
Qed.

(** C8: when the build, the deploy and the describe commands all exit
    with status 0, [main] returns normally, and the last two lines it prints
    depend on the captured output of describe: if that output is empty once
    trimmed, the fallback URL and the message that the deployment finished
    (not the success message); otherwise the trimmed output as the URL and
    the success message. *)
Theorem describe_output_selects_final_message
    w o1 e1 fs1 ext1 o2 e2 fs2 ext2 out err fs3 ext3 :
  loaded (fs w) ≠ ∅ →
  popen build_cmd
    (<[TEMP_ENV_YAML := yaml_dump (loaded (fs w))]> (fs w)) (ext w)
    = (Exited 0 o1 e1, fs1, ext1) →
  popen deploy_cmd fs1 ext1 = (Exited 0 o2 e2, fs2, ext2) →
  popen describe_cmd fs2 ext2 = (Exited 0 out err, fs3, ext3) →
  main popen yaml_dump w
  = (Ret tt,
     World (delete TEMP_ENV_YAML fs3) ext3
       (trace w
          ++ [Print msg_project; Print msg_target; Print msg_reading]
          ++ (if negb (Py.truthy_opt (loaded (fs w) !! lit "GEMINI_API_KEY"))
              then [Print msg_warning] else [])
          ++ [Print msg_step1; Spawn build_cmd false;
              Print msg_step2; Spawn deploy_cmd false;
              Print msg_step3; Spawn describe_cmd true]
          ++ match Py.strip out with
             | [] => [Print msg_fallback_url; Print msg_finished]
             | url => [Print (lit "  " ++ url); Print msg_success]
             end)).
Proof.
  intros Hne H1 H2 H3.
  rewrite main_run, bind_run, load_nonempty by done.
  rewrite try_finally_cleanup.
  erewrite deploy_steps_succeed by done.
  cbn [fst snd fs ext trace]. by rewrite <- !app_assoc.
Qed.

End Orchestration.

(** ** Concrete runs *)

Lemma temp_file_absent_at_exit_witness :
  let w := project (text ["A=1"]%string) in
  let sh := gcloud ok (7, [], lit "denied") ok in
  loaded (fs w) ≠ ∅
  ∧ fs (load_and_serialize dump_or_empty w).2 !! TEMP_ENV_YAML
    = Some (dump_or_empty (loaded (fs w)))
  ∧ fs (main sh dump_or_empty w).2 !! TEMP_ENV_YAML = None.
Proof.
  intros w sh. split; [by vm_compute|].
  apply (temp_file_absent_at_exit sh dump_or_empty w). by vm_compute.
Defined.




Lemma missing_or_empty_env_exits_1_witness :
  let w : world unit := World ∅ tt [] in
  let sh := gcloud ok ok ok in
  parse_env_file ENV_FILE w
  = (Ret ∅,
     World ∅ tt [Print (lit "Error: " ++ ENV_FILE ++ lit " not found.")])
  ∧ ∃ evs,
      main sh dump_or_empty w = (Exit 1, World ∅ tt (trace w ++ evs))
      ∧ exit_status (main sh dump_or_empty w).1 = 1
      ∧ spawned evs = []
      ∧ last (printed evs) = Some msg_no_env.
Proof.
  intros w sh. split.
  - apply (proj1 (missing_or_empty_env_exits_1 sh dump_or_empty) ENV_FILE w).
    reflexivity.
  - apply (proj2 (missing_or_empty_env_exits_1 sh dump_or_empty) w).
    reflexivity.
Defined.

Lemma missing_api_key_warns_then_builds_witness :
  let w := project (text ["GEMINI_API_KEY="; "A=1"]%string) in
  let sh := gcloud ok ok ok in
  ∃ rest,
    trace (main sh dump_or_empty w).2
    = trace w
      ++ [Print msg_project; Print msg_target; Print msg_reading;
          Print msg_warning; Print msg_step1; Spawn build_cmd false]
      ++ rest.
Proof.
  intros w sh.
  apply (missing_api_key_warns_then_builds sh dump_or_empty w).
  - by vm_compute.
  - right. by vm_compute.
Defined.

Lemma describe_output_selects_final_message_witness :
  let w := project (text ["GEMINI_API_KEY=k"]%string) in
  let sh := gcloud ok ok (0, lit " " ++ [LF], []) in
  main sh dump_or_empty w
  = (Ret tt,
     World {[ ENV_FILE := text ["GEMINI_API_KEY=k"]%string ]} tt
       [Print msg_project; Print msg_target; Print msg_reading;
        Print msg_step1; Spawn build_cmd false;
        Print msg_step2; Spawn deploy_cmd false;
        Print msg_step3; Spawn describe_cmd true;
        Print msg_fallback_url; Print msg_finished]).
Proof.
  intros w sh.
  set (files := <[TEMP_ENV_YAML := dump_or_empty (loaded (fs w))]> (fs w)).
  rewrite (describe_output_selects_final_message sh dump_or_empty w
             [] [] files tt [] [] files tt (lit " " ++ [LF]) [] files tt);
    [| by vm_compute | reflexivity | reflexivity | reflexivity ].
  by vm_compute.
Defined.

(** * The serialized text *)

(** C5 as the specification states it fails: [yaml.dump] strips nothing.
    Given the dict that binds A to 1 and B to the word two in double quotes,
    it writes both values in single quotes, the quotes of B kept; the text
    has neither the line [A: 1] nor the line [B: two]. *)
Lemma dump_keeps_the_quotes :
  let env_vars : gmap str str := {[ lit "A" := lit "1"; lit "B" := quoted_two ]} in
  Yaml.lines <$> Yaml.dump env_vars
  = Some [lit "A: '1'"; (lit "B: '" ++ quoted_two ++ lit "'")]
  ∧ ∃ content, Yaml.dump env_vars = Some content
               ∧ (lit "A: 1" ∉ Yaml.lines content)
               ∧ (lit "B: two" ∉ Yaml.lines content).
Proof.
  intros env_vars. split; [by vm_compute|].
  eexists. split; [by vm_compute|]. split; compute_done.
Qed.

(** C5, as the code has it: the outer double quotes of B's value are
    removed by [parse_env_file], not by the serializer.  From the lines A=1
    and B= followed by the word two in double quotes, the parsed dict binds A
    to 1 and B to two, and the temporary file that [main] then writes with
    [yaml.dump] holds the lines [A: '1'] and [B: two]. *)
Theorem parser_strips_quotes_before_dump :
  loaded (fs (project env_text_AB))
  = {[ lit "A" := lit "1"; lit "B" := lit "two" ]}
  ∧ Yaml.dump (loaded (fs (project env_text_AB)))
    = Some (lit "A: '1'" ++ [LF] ++ lit "B: two" ++ [LF])
  ∧ Yaml.lines
      <$> fs (load_and_serialize dump_or_empty (project env_text_AB)).2
          !! TEMP_ENV_YAML
    = Some [lit "A: '1'"; lit "B: two"].
Proof. split; [by vm_compute|]. split; by vm_compute. Qed.

(** * Every way out of [main] *)

Example run_succeeds :
  summary (main (gcloud ok ok (0, lit "https://live" ++ [LF], []))
             dump_or_empty (project env_text_AB))
  = (0, [build_cmd; deploy_cmd; describe_cmd], false).
Proof. by vm_compute. Qed.

Example run_build_fails :
  summary (main (gcloud (2, [], []) ok ok)
             dump_or_empty (project env_text_AB))
  = (2, [build_cmd], false).
Proof. by vm_compute. Qed.

Example run_deploy_fails :
  summary (main (gcloud ok (7, [], []) ok)
             dump_or_empty (project env_text_AB))
  = (7, [build_cmd; deploy_cmd], false).
Proof. by vm_compute. Qed.

Example run_describe_fails :
  summary (main (gcloud ok ok (9, [], lit "no such service"))
             dump_or_empty (project env_text_AB))
  = (9, [build_cmd; deploy_cmd; describe_cmd], false).
Proof. by vm_compute. Qed.

Example run_without_gcloud :
  summary (main (λ _ files e,
                   (Unstartable (FileNotFoundError (lit "gcloud")), files, e))
             dump_or_empty (project env_text_AB))
  = (1, [build_cmd], false).
Proof. by vm_compute. Qed.

Example run_without_env_file :
  summary (main (gcloud ok ok ok) dump_or_empty (World ∅ tt []))
  = (1, [], false).
Proof. by vm_compute. Qed.

(** The examples of the specification. *)
Example parse_url_with_equals :
  parse_lines [lit "URL=https://x?a=1" ++ [LF]]
  = {[ lit "URL" := lit "https://x?a=1" ]}.
Proof. by vm_compute. Qed.

Example parse_skips_blank_and_comment_lines :
  parse_lines (Py.readlines (text [""; "   "; "# only a comment"; "A=1"]%string))
  = {[ lit "A" := lit "1" ]}.
Proof. by vm_compute. Qed.

Example parse_cuts_value_at_hash :
  parse_lines [lit "COLOR=#fff"] = {[ lit "COLOR" := [] ]}.
Proof. by vm_compute. Qed.

(** * More on the loop body *)
Section EntryFacts.

Implicit Types (s a b k v : str) (c : ascii).

Lemma lstrip_head s :
  Py.lstrip s = [] ∨ ∃ c t, Py.lstrip s = c :: t ∧ Py.isspace c = false.
Proof.
  induction s as [|c s IH]; simpl; [by left|].
  destruct (Py.isspace c) eqn:Hc; [done|]. right. by exists c, s.
Qed.

Lemma rstrip_last s :
  Py.rstrip s = [] ∨ ∃ u d, Py.rstrip s = u ++ [d] ∧ Py.isspace d = false.
Proof.
  unfold Py.rstrip. destruct (lstrip_head (rev s)) as [->|(c & t & -> & Hc)].
  - by left.
  - right. exists (rev t), c. by simpl.
Qed.

Lemma lacks_strip c s : lacks c s = true → lacks c (Py.strip s) = true.
Proof. intros. unfold Py.strip. by apply lacks_rstrip, lacks_lstrip. Qed.

(** [s.strip()] has no white space at either end. *)
Lemma strip_trimmed s : trimmed (Py.strip s) = true.
Proof.
  unfold Py.strip.
  destruct (lstrip_head s) as [->|(c & t & -> & Hc)]; [done|].
  pose proof (rstrip_app_nonspace [] c t Hc) as Hr. simpl in Hr.
  destruct (rstrip_last (c :: t)) as [Hnil|(u & d & Hu & Hd)].
  - rewrite Hnil in Hr. done.
  - unfold trimmed. rewrite Hu at 2. rewrite last_snoc, Hr. simpl.
    by rewrite Hc, Hd.
Qed.

Lemma strip_blank s : blank s = true → Py.strip s = [].
Proof. intros Hs. unfold Py.strip. by rewrite lstrip_blank. Qed.

Lemma split1_absent c s : c ∉ s → Py.split1 c s = [s].
Proof.
  induction s as [|d s IH]; simpl; [done|].
  intros [Hd Hs]%not_elem_of_cons.
  rewrite decide_False by done. by rewrite IH.
Qed.

Lemma split1_present c s :
  c ∈ s → ∃ a b, s = a ++ c :: b ∧ (c ∉ a) ∧ Py.split1 c s = [a; b].
Proof.
  intros (a & b & -> & Ha)%list_elem_of_split_l.
  exists a, b. by rewrite split1_first.
Qed.

Lemma lacks_strip_quotes c v : lacks c v = true → lacks c (strip_quotes v) = true.
Proof.
  unfold strip_quotes. destruct (_ || _); [|done].
  rewrite !lacks_not_elem. unfold Py.slice. intros Hv Hin. apply Hv.
  by apply subseteq_take, subseteq_drop in Hin.
Qed.

Lemma cut_line_lacks_hash line : lacks "#" (cut_line line) = true.
Proof.
  unfold cut_line. change (lit "#") with ["#"%char]. rewrite contains_char.
  case_bool_decide as Hin.
  - apply split1_present in Hin as (a & b & _ & Ha & ->). simpl.
    by apply lacks_strip, lacks_not_elem.
  - by apply lacks_not_elem.
Qed.

Lemma cut_line_lacks c line : lacks c line = true → lacks c (cut_line line) = true.
Proof.
  intros Hc. unfold cut_line. change (lit "#") with ["#"%char].
  rewrite contains_char. apply lacks_strip in Hc.
  case_bool_decide as Hin; [|done].
  apply split1_present in Hin as (a & b & Heq & _ & ->). simpl.
  apply lacks_strip. rewrite Heq, lacks_app in Hc.
  by apply andb_true_iff in Hc as [? _].
Qed.

(** Every entry comes from a cut line split at its first [=]. *)
Lemma line_entry_Some line k v :
  line_entry line = Some (k, v) →
  ∃ a b, cut_line line = a ++ "="%char :: b ∧ ("="%char ∉ a)
         ∧ k = Py.strip a ∧ v = strip_quotes (Py.strip b).
Proof.
  unfold line_entry. fold (cut_line line).
  destruct (negb _ || _); [done|].
  change (lit "=") with ["="%char]. rewrite contains_char.
  case_bool_decide as Hin; [|done].
  apply split1_present in Hin as (a & b & Heq & Ha & ->).
  intros [= <- <-]. by exists a, b.
Qed.

End EntryFacts.

(** * The parser: lines that store nothing, comments, and what is stored *)

(** A line made of white space only, and a line whose first character
    after leading white space is [#], store no entry. *)
Theorem blank_or_comment_line_stores_nothing (line : str) :
  blank line = true
  ∨ (∃ p c, blank p = true ∧ line = p ++ "#"%char :: c) →
  line_entry line = None.
Proof.
  intros [Hb|(p & c & Hp & ->)]; unfold line_entry.
  - by rewrite strip_blank.
  - rewrite strip_app_nonspace, lstrip_blank by done. cbn [app].
    change (lit "#") with ["#"%char]. rewrite startswith_char. cbn [head].
    rewrite bool_decide_eq_true_2 by done. by rewrite orb_true_r.
Qed.

Lemma blank_or_comment_line_stores_nothing_witness :
  line_entry (lit "   # A=1" ++ [LF]) = None.
Proof.
  apply blank_or_comment_line_stores_nothing. right.
  exists (lit "   "), (lit " A=1" ++ [LF]). split; reflexivity.
Defined.

(** A line without [=] stores no entry. *)
Theorem line_without_equals_stores_nothing (line : str) :
  lacks "=" line = true → line_entry line = None.
Proof.
  intros Hl. destruct (line_entry line) as [[k v]|] eqn:He; [|done].
  apply line_entry_Some in He as (a & b & Hcut & _).
  apply (cut_line_lacks "=") in Hl. rewrite Hcut, lacks_app in Hl.
  apply andb_true_iff in Hl as [_ Hl]. by simpl in Hl.
Qed.

Lemma line_without_equals_stores_nothing_witness :
  line_entry (lit "export PATH" ++ [LF]) = None.
Proof. apply line_without_equals_stores_nothing. reflexivity. Defined.

(** Whatever follows the first [#] of a line has no effect on what the
    line stores: the line is read as if it ended before that [#].  In
    particular a value is cut at a [#] inside it, quoted or not. *)
Theorem text_after_hash_is_ignored (A c : str) :
  lacks "#" A = true →
  line_entry (A ++ "#"%char :: c) = line_entry A.
Proof.
  intros HA. pose proof (lacks_lstrip _ _ HA) as HL.
  pose proof (lacks_strip _ _ HA) as HS.
  assert (Hidem : Py.strip (Py.lstrip A) = Py.strip A)
    by (unfold Py.strip; by rewrite lstrip_idemp).
  unfold line_entry. rewrite strip_app_nonspace by done.
  change (lit "#") with ["#"%char].
  rewrite !startswith_char, !contains_char.
  rewrite (bool_decide_eq_true_2 ("#"%char ∈ _ ++ _))
    by (apply elem_of_app; right; apply list_elem_of_here).
  rewrite (bool_decide_eq_false_2 ("#"%char ∈ Py.strip A))
    by (by apply lacks_not_elem).
  rewrite split1_first by (by apply lacks_not_elem).
  cbn [head default from_option id]. rewrite truthy_app_cons, Hidem.
  cbn [negb orb].
  destruct (lstrip_head A) as [Hnil|(d & t & Hd & Hsp)].
  - assert (Hstrip : Py.strip A = []) by (unfold Py.strip; by rewrite Hnil).
    rewrite Hnil, Hstrip. cbn [app head Py.truthy negb orb].
    by rewrite bool_decide_eq_true_2.
  - assert (Hne : Some d ≠ Some "#"%char).
    { intros [= ->]. rewrite Hd in HL. cbn [lacks forallb] in HL.
      by rewrite bool_decide_eq_true_2 in HL. }
    assert (Hstrip : Py.strip A = d :: Py.rstrip t).
    { unfold Py.strip. rewrite Hd.
      apply (rstrip_app_nonspace [] d t Hsp). }
    rewrite Hd. rewrite !Hstrip. cbn [app head Py.truthy negb orb].
    by rewrite !(bool_decide_eq_false_2 _ Hne).
Qed.

Lemma text_after_hash_is_ignored_witness :
  line_entry (lit "COLOR='#fff' # white")
  = line_entry (lit "COLOR='")
  ∧ line_entry (lit "COLOR='") = Some (lit "COLOR", []).
Proof.
  split; [|reflexivity].
  apply (text_after_hash_is_ignored (lit "COLOR='") (lit "fff' # white")).
  reflexivity.
Defined.

(** What a line stores is well shaped: the key has no white space at
    either end, no [=] and no [#], and the value has no [#]. *)
Theorem stored_entry_shape (line k v : str) :
  line_entry line = Some (k, v) →
  trimmed k = true ∧ lacks "=" k = true ∧ lacks "#" k = true
  ∧ lacks "#" v = true.
Proof.
  intros (a & b & Hcut & Ha & -> & ->)%line_entry_Some.
  pose proof (cut_line_lacks_hash line) as Hh.
  rewrite Hcut, lacks_app in Hh. simpl in Hh.
  apply andb_true_iff in Hh as [Hah Hbh].
  split; [apply strip_trimmed|].
  split; [by apply lacks_strip, lacks_not_elem|].
  split; [by apply lacks_strip|].
  by apply lacks_strip_quotes, lacks_strip.
Qed.

Lemma stored_entry_shape_witness :
  trimmed (lit "URL") = true ∧ lacks "=" (lit "URL") = true
  ∧ lacks "#" (lit "URL") = true ∧ lacks "#" (lit "a=b") = true.
Proof.
  apply (stored_entry_shape (lit "  URL = 'a=b' # c") (lit "URL") (lit "a=b")).
  reflexivity.
Defined.

(** ** The dict as a whole *)

Lemma foldl_parse_line_lookup (env : gmap str str) (ls : list str) (k v : str) :
  foldl parse_line env ls !! k = Some v →
  env !! k = Some v ∨ Exists (λ l, line_entry l = Some (k, v)) ls.
Proof.
  revert env. induction ls as [|l ls IH]; intros env; simpl; [by left|].
  intros [Hl|Hex]%IH; [|right; by apply Exists_cons_tl].
  unfold parse_line in Hl. destruct (line_entry l) as [[k' v']|] eqn:He;
    [|by left].
  destruct (decide (k' = k)) as [->|Hne].
  - rewrite lookup_insert_eq in Hl. injection Hl as ->.
    right. by apply Exists_cons_hd.
  - rewrite lookup_insert_ne in Hl by done. by left.
Qed.

Lemma foldl_parse_line_is_Some (env : gmap str str) (ls : list str) (k : str) :
  is_Some (foldl parse_line env ls !! k)
  ↔ is_Some (env !! k) ∨ Exists (λ l, fst <$> line_entry l = Some k) ls.
Proof.
  revert env. induction ls as [|l ls IH]; intros env; simpl.
  - rewrite Exists_nil. tauto.
  - rewrite IH, Exists_cons. unfold parse_line.
    destruct (line_entry l) as [[k' v']|] eqn:He; simpl.
    + rewrite lookup_insert_is_Some.
      split.
      * intros [[->|[_ ?]]|?]; auto.
      * intros [?|[[= ->]|?]]; auto.
        destruct (decide (k' = k)); auto.
    + split; [intros [?|?]; auto|intros [?|[?|?]]; auto; done].
Qed.

Lemma parse_lines_empty (ls : list str) :
  parse_lines ls = ∅ ↔ Forall (λ l, line_entry l = None) ls.
Proof.
  unfold parse_lines. rewrite map_empty. split.
  - intros Hall. apply Forall_forall. intros l Hl.
    destruct (line_entry l) as [[k v]|] eqn:He; [|done].
    specialize (Hall k). apply eq_None_not_Some in Hall.
    destruct Hall. apply foldl_parse_line_is_Some. right.
    apply Exists_exists. exists l. by rewrite He.
  - intros Hall k. apply eq_None_not_Some.
    rewrite foldl_parse_line_is_Some, lookup_empty.
    intros [[? [=]]|(l & Hl & He)%Exists_exists].
    rewrite Forall_forall in Hall. by rewrite (Hall l Hl) in He.
Qed.

(** The keys of the dict [parse_env_file] builds are exactly the keys
    that some line stores: no key is lost and none is invented. *)
Theorem parsed_keys_are_line_keys (ls : list str) (k : str) :
  is_Some (parse_lines ls !! k)
  ↔ Exists (λ l, fst <$> line_entry l = Some k) ls.
Proof.
  unfold parse_lines. rewrite foldl_parse_line_is_Some, lookup_empty.
  split; [intros [[? [=]]|?]; done | by right].
Qed.

(** Every binding of the dict is the entry of one of the lines, so its key
    is trimmed and has neither [=] nor [#], and its value has no [#]. *)
Theorem parsed_binding_origin (ls : list str) (k v : str) :
  parse_lines ls !! k = Some v →
  Exists (λ l, line_entry l = Some (k, v)) ls
  ∧ trimmed k = true ∧ lacks "=" k = true ∧ lacks "#" k = true
  ∧ lacks "#" v = true.
Proof.
  intros [Hemp|Hex]%foldl_parse_line_lookup; [by rewrite lookup_empty in Hemp|].
  split; [done|].
  apply Exists_exists in Hex as (l & _ & He).
  apply line_entry_Some in He as (a & b & Hcut & Ha & -> & ->).
  pose proof (cut_line_lacks_hash l) as Hh.
  rewrite Hcut, lacks_app in Hh. simpl in Hh.
  apply andb_true_iff in Hh as [Hah Hbh].
  split; [apply strip_trimmed|].
  split; [by apply lacks_strip, lacks_not_elem|].
  split; [by apply lacks_strip|].
  by apply lacks_strip_quotes, lacks_strip.
Qed.

Lemma parsed_binding_origin_witness :
  let ls := Py.readlines (text ["# settings"; " PORT = 8080 # web"]%string) in
  Exists (λ l, line_entry l = Some (lit "PORT", lit "8080")) ls
  ∧ trimmed (lit "PORT") = true ∧ lacks "=" (lit "PORT") = true
  ∧ lacks "#" (lit "PORT") = true ∧ lacks "#" (lit "8080") = true.
Proof.
  intros ls. apply (parsed_binding_origin ls (lit "PORT") (lit "8080")).
  by vm_compute.
Defined.

(** * More on the runner *)
Section RunnerMore.

Context {Ext : Type}.
Variable popen : command → gmap str str → Ext → child * gmap str str * Ext.

Implicit Types (w : world Ext) (cmd : command).

(** [run] by the fate of the child, for either value of [check]. *)
Lemma run_cases cmd check capture w c fs' ext' :
  popen cmd (fs w) (ext w) = (c, fs', ext') →
  run popen cmd check capture w =
  match c with
  | Unstartable (FileNotFoundError m) =>
      (Exit 1,
       World fs' ext'
         (trace w ++ [Spawn cmd capture;
                      Print (lit "Command not found: " ++ m)]))
  | Unstartable (OSError m) =>
      (Raise (OSError m), World fs' ext' (trace w ++ [Spawn cmd capture]))
  | Exited code out err =>
      if check && negb (code =? 0) then
        (Exit code,
         World fs' ext'
           (trace w ++ Spawn cmd capture
              :: if capture then [] else [Print (lit "Command failed.")]))
      else
        (Ret {| returncode := code;
                stdout := if capture then Some out else None;
                stderr := if capture then Some err else None |},
         World fs' ext' (trace w ++ [Spawn cmd capture]))
  end.
Proof.
  intros Hp. unfold run, try_except_FileNotFoundError.
  rewrite bind_run. unfold subprocess_run. rewrite Hp.
  destruct c as [[m|m]|code out err]; simpl.
  - rewrite bind_run, print_run. simpl. by rewrite <- app_assoc.
  - done.
  - destruct (check && negb (code =? 0)); simpl; [|done].
    rewrite bind_run. destruct capture; simpl; [done|].
    by rewrite <- app_assoc.
Qed.

(** With [check=False] a failing command does not end the process: [run]
    returns the result with the status of the child, whatever it is, and
    prints nothing. *)
Theorem run_unchecked_returns_status cmd capture w code out err fs' ext' :
  popen cmd (fs w) (ext w) = (Exited code out err, fs', ext') →
  run popen cmd false capture w
  = (Ret {| returncode := code;
            stdout := if capture then Some out else None;
            stderr := if capture then Some err else None |},
     World fs' ext' (trace w ++ [Spawn cmd capture])).
Proof. intros Hp. by rewrite (run_cases cmd false capture w _ fs' ext' Hp). Qed.

(** When the executable does not exist, [run] prints that the command was
    not found and ends the process with status 1, also with
    [check=False]. *)
Theorem run_command_not_found cmd check capture w m fs' ext' :
  popen cmd (fs w) (ext w) = (Unstartable (FileNotFoundError m), fs', ext') →
  run popen cmd check capture w
  = (Exit 1,
     World fs' ext'
       (trace w ++ [Spawn cmd capture;
                    Print (lit "Command not found: " ++ m)])).
Proof. intros Hp. by rewrite (run_cases cmd check capture w _ fs' ext' Hp). Qed.

(** [run] catches [FileNotFoundError] only: another exception raised when
    starting the child leaves [run] as it is, and nothing is printed. *)
Theorem run_passes_other_exceptions cmd check capture w m fs' ext' :
  popen cmd (fs w) (ext w) = (Unstartable (OSError m), fs', ext') →
  run popen cmd check capture w
  = (Raise (OSError m), World fs' ext' (trace w ++ [Spawn cmd capture])).
Proof. intros Hp. by rewrite (run_cases cmd check capture w _ fs' ext' Hp). Qed.

(** What a caller knows when [run] returns: with [check=True] the status
    is 0; the two streams are there exactly when capture was asked for; and
    [run] has printed nothing. *)
Theorem run_return_postcondition cmd check capture w r w' :
  run popen cmd check capture w = (Ret r, w') →
  (check = true → returncode r = 0)
  ∧ (is_Some (stdout r) ↔ capture = true)
  ∧ (is_Some (stderr r) ↔ capture = true)
  ∧ trace w' = trace w ++ [Spawn cmd capture].
Proof.
  destruct (popen cmd (fs w) (ext w)) as [[c fs'] ext'] eqn:Hp.
  rewrite (run_cases cmd check capture w c fs' ext' Hp).
  destruct c as [[m|m]|code out err]; [done..|].
  destruct (check && negb (code =? 0)) eqn:Hc; [done|].
  intros [= <- <-]. simpl. split; [|split; [|split; [|done]]].
  - intros ->. simpl in Hc. apply negb_false_iff in Hc.
    by apply Z.eqb_eq in Hc.
  - destruct capture; split; try done; by intros [? [=]].
  - destruct capture; split; try done; by intros [? [=]].
Qed.

End RunnerMore.

Lemma run_unchecked_returns_status_witness :
  run (gcloud (2, lit "o", lit "e") ok ok) build_cmd false true (project [])
  = (Ret {| returncode := 2; stdout := Some (lit "o");
            stderr := Some (lit "e") |},
     World (fs (project [])) tt [Spawn build_cmd true]).
Proof.
  apply (run_unchecked_returns_status (gcloud (2, lit "o", lit "e") ok ok)
           build_cmd true (project []) 2 (lit "o") (lit "e")).
  reflexivity.
Defined.

Lemma run_command_not_found_witness :
  run (gcloud ok ok ok) (Shell (lit "kubectl version")) false false (project [])
  = (Exit 1,
     World (fs (project [])) tt
       [Spawn (Shell (lit "kubectl version")) false;
        Print (lit "Command not found: [Errno 2] No such file or directory")]).
Proof.
  apply (run_command_not_found (gcloud ok ok ok)
           (Shell (lit "kubectl version")) false false (project [])).
  reflexivity.
Defined.

Lemma run_passes_other_exceptions_witness :
  let sh := λ (_ : command) (files : gmap str str) (e : unit),
              (Unstartable (OSError (lit "[Errno 13] Permission denied")),
               files, e) in
  run sh build_cmd true false (project [])
  = (Raise (OSError (lit "[Errno 13] Permission denied")),
     World (fs (project [])) tt [Spawn build_cmd false]).
Proof.
  intros sh.
  apply (run_passes_other_exceptions sh build_cmd true false (project [])).
  reflexivity.
Defined.

Lemma run_return_postcondition_witness :
  let r := {| returncode := 0; stdout := Some (lit "url"); stderr := Some [] |} in
  (true = true → returncode r = 0)
  ∧ (is_Some (stdout r) ↔ true = true)
  ∧ (is_Some (stderr r) ↔ true = true)
  ∧ [Spawn describe_cmd true] = [] ++ [Spawn describe_cmd true].
Proof.
  intros r.
  apply (run_return_postcondition (gcloud ok ok (0, lit "url", []))
           describe_cmd true true (project []) r
           (World (fs (project [])) tt [Spawn describe_cmd true])).
  reflexivity.
Defined.

(** * More on the orchestrator *)
Section MainMore.

Context {Ext : Type}.
Variable popen : command → gmap str str → Ext → child * gmap str str * Ext.
Variable yaml_dump : gmap str str → str.

Implicit Types (w : world Ext).

(** The [try] block, stage by stage, for any behaviour of the commands:
    the commands it spawns are the first one, two or three of build, deploy
    and describe, in that order, and all three when it returns. *)
Lemma deploy_steps_spawns w :
  ∃ evs,
    trace (deploy_steps popen w).2 = trace w ++ evs
    ∧ spawned evs `prefix_of` [build_cmd; deploy_cmd; describe_cmd]
    ∧ ((deploy_steps popen w).1 = Ret tt
       → spawned evs = [build_cmd; deploy_cmd; describe_cmd]).
Proof.
  unfold deploy_steps, show_url.
  rewrite bind_run, print_run. cbv iota beta. rewrite bind_run.
  destruct (popen build_cmd (fs w) (ext w)) as [[c1 fs1] ext1] eqn:H1.
  rewrite (run_check popen build_cmd false (World (fs w) (ext w) _)
             _ fs1 ext1 H1).
  assert (P1 : [build_cmd] `prefix_of` [build_cmd; deploy_cmd; describe_cmd])
    by (by eexists).
  assert (P2 : [build_cmd; deploy_cmd]
                 `prefix_of` [build_cmd; deploy_cmd; describe_cmd])
    by (by eexists).
  destruct c1 as [[m|m]|code1 o1 e1]; cbn [fst snd trace];
    [rewrite <- app_assoc; by eexists..|].
  destruct (code1 =? 0); cbn [fst snd trace];
    [|rewrite <- app_assoc; by eexists].
  rewrite bind_run, print_run. cbv iota beta. cbn [fs ext trace].
  rewrite bind_run.
  destruct (popen deploy_cmd fs1 ext1) as [[c2 fs2] ext2] eqn:H2.
  rewrite (run_check popen deploy_cmd false (World fs1 ext1 _)
             _ fs2 ext2 H2).
  destruct c2 as [[m|m]|code2 o2 e2]; cbn [fst snd trace];
    [rewrite <- !app_assoc; by eexists..|].
  destruct (code2 =? 0); cbn [fst snd trace];
    [|rewrite <- !app_assoc; by eexists].
  rewrite bind_run, print_run. cbv iota beta. cbn [fs ext trace].
  rewrite bind_run.
  destruct (popen describe_cmd fs2 ext2) as [[c3 fs3] ext3] eqn:H3.
  rewrite (run_check popen describe_cmd true (World fs2 ext2 _)
             _ fs3 ext3 H3).
  destruct c3 as [[m|m]|code3 o3 e3]; cbn [fst snd trace];
    [rewrite <- !app_assoc; by eexists..|].
  destruct (code3 =? 0); cbn [fst snd trace];
    [|rewrite <- !app_assoc; by eexists].
  cbv zeta. destruct (Py.truthy _);
    rewrite bind_run, !print_run; cbv iota beta; cbn [fst snd fs ext trace];
    rewrite <- !app_assoc; by eexists.
Qed.

(** Whatever the commands do, [main] spawns nothing but build, deploy and
    describe, at most once each and in that order, each only after the one
    before it; and it returns normally only after it has spawned all
    three. *)
Theorem main_spawns_in_order w :
  ∃ evs,
    trace (main popen yaml_dump w).2 = trace w ++ evs
    ∧ spawned evs `prefix_of` [build_cmd; deploy_cmd; describe_cmd]
    ∧ ((main popen yaml_dump w).1 = Ret tt
       → spawned evs = [build_cmd; deploy_cmd; describe_cmd]).
Proof.
  rewrite main_run, bind_run.
  destruct (decide (loaded (fs w) = ∅)) as [Hemp|Hne].
  - rewrite load_empty by done. cbn [fst snd trace].
    eexists. split; [done|]. split; [|done].
    destruct (fs w !! ENV_FILE); apply prefix_nil.
  - rewrite load_nonempty by done. rewrite try_finally_cleanup.
    cbn [fst snd trace].
    match goal with
    | |- context [deploy_steps popen ?w1] =>
        destruct (deploy_steps_spawns w1) as (evs & -> & Hpre & Hret)
    end.
    cbn [trace]. eexists. split; [by rewrite <- !app_assoc|].
    unfold spawned in *. rewrite !omap_app.
    destruct (negb _); simpl; by split.
Qed.

End MainMore.

(** * The other ways out of [main] *)
Section MainPaths.

Context {Ext : Type}.
Variable popen : command → gmap str str → Ext → child * gmap str str * Ext.
Variable yaml_dump : gmap str str → str.

Implicit Types (w : world Ext).

Lemma deploy_steps_deploy_fails w o1 e1 fs1 ext1 code out err fs2 ext2 :
  popen build_cmd (fs w) (ext w) = (Exited 0 o1 e1, fs1, ext1) →
  popen deploy_cmd fs1 ext1 = (Exited code out err, fs2, ext2) →
  code ≠ 0 →
  deploy_steps popen w =
  (Exit code,
   World fs2 ext2
     (trace w ++ [Print msg_step1; Spawn build_cmd false;
                  Print msg_step2; Spawn deploy_cmd false;
                  Print (lit "Command failed.")])).
Proof.
  intros H1 H2 Hcode. unfold deploy_steps.
  rewrite bind_run, print_run. cbv iota beta.
  rewrite bind_run, (run_check popen build_cmd false (World (fs w) (ext w) _)
                       _ fs1 ext1 H1).
  cbn [Z.eqb fs ext trace].
  rewrite bind_run, print_run. cbv iota beta. cbn [fs ext trace].
  rewrite bind_run, (run_check popen deploy_cmd false (World fs1 ext1 _)
                       _ fs2 ext2 H2).
  destruct (code =? 0) eqn:Hz; [by apply Z.eqb_eq in Hz|].
  cbn [trace]. by rewrite <- !app_assoc.
Qed.

Lemma deploy_steps_describe_fails
    w o1 e1 fs1 ext1 o2 e2 fs2 ext2 code out err fs3 ext3 :
  popen build_cmd (fs w) (ext w) = (Exited 0 o1 e1, fs1, ext1) →
  popen deploy_cmd fs1 ext1 = (Exited 0 o2 e2, fs2, ext2) →
  popen describe_cmd fs2 ext2 = (Exited code out err, fs3, ext3) →
  code ≠ 0 →
  deploy_steps popen w =
  (Exit code,
   World fs3 ext3
     (trace w ++ [Print msg_step1; Spawn build_cmd false;
                  Print msg_step2; Spawn deploy_cmd false;
                  Print msg_step3; Spawn describe_cmd true])).
Proof.
  intros H1 H2 H3 Hcode. unfold deploy_steps, show_url.
  rewrite bind_run, print_run. cbv iota beta.
  rewrite bind_run, (run_check popen build_cmd false (World (fs w) (ext w) _)
                       _ fs1 ext1 H1).
  cbn [Z.eqb fs ext trace].
  rewrite bind_run, print_run. cbv iota beta. cbn [fs ext trace].
  rewrite bind_run, (run_check popen deploy_cmd false (World fs1 ext1 _)
                       _ fs2 ext2 H2).
  cbn [Z.eqb fs ext trace].
  rewrite bind_run, print_run. cbv iota beta. cbn [fs ext trace].
  rewrite bind_run, (run_check popen describe_cmd true (World fs2 ext2 _)
                       _ fs3 ext3 H3).
  destruct (code =? 0) eqn:Hz; [by apply Z.eqb_eq in Hz|].
  cbn [trace]. by rewrite <- !app_assoc.
Qed.

Lemma deploy_steps_not_found w m fs' ext' :
  popen build_cmd (fs w) (ext w)
    = (Unstartable (FileNotFoundError m), fs', ext') →
  deploy_steps popen w =
  (Exit 1,
   World fs' ext'
     (trace w ++ [Print msg_step1; Spawn build_cmd false;
                  Print (lit "Command not found: " ++ m)])).
Proof.
  intros Hp. unfold deploy_steps.
  rewrite bind_run, print_run. cbv iota beta.
  rewrite bind_run, (run_check popen build_cmd false (World (fs w) (ext w) _)
                       _ fs' ext' Hp).
  cbn [trace]. by rewrite <- !app_assoc.
Qed.

(** If the build succeeds and the deploy command exits with a status other
    than 0, [main] ends by [sys.exit] with that status after printing the
    generic failure message; describe is never spawned and the temporary
    file is removed. *)
Theorem deploy_failure_halts w o1 e1 fs1 ext1 code out err fs2 ext2 :
  loaded (fs w) ≠ ∅ →
  popen build_cmd
    (<[TEMP_ENV_YAML := yaml_dump (loaded (fs w))]> (fs w)) (ext w)
    = (Exited 0 o1 e1, fs1, ext1) →
  popen deploy_cmd fs1 ext1 = (Exited code out err, fs2, ext2) →
  code ≠ 0 →
  ∃ evs,
    main popen yaml_dump w
    = (Exit code, World (delete TEMP_ENV_YAML fs2) ext2 (trace w ++ evs))
    ∧ spawned evs = [build_cmd; deploy_cmd]
    ∧ last (printed evs) = Some (lit "Command failed.").
Proof.
  intros Hne H1 H2 Hcode.
  rewrite main_run, bind_run, load_nonempty by done.
  rewrite try_finally_cleanup.
  erewrite deploy_steps_deploy_fails by done.
  cbn [fst snd fs ext trace].
  eexists. split; [by rewrite <- !app_assoc|].
  by destruct (negb _).
Qed.

(** If build and deploy succeed and the describe command exits with a
    status other than 0, [main] ends by [sys.exit] with that status and says
    nothing about the failure: the output of describe is captured and
    dropped, and the last line printed is the [3/3] heading. *)
Theorem describe_failure_is_silent
    w o1 e1 fs1 ext1 o2 e2 fs2 ext2 code out err fs3 ext3 :
  loaded (fs w) ≠ ∅ →
  popen build_cmd
    (<[TEMP_ENV_YAML := yaml_dump (loaded (fs w))]> (fs w)) (ext w)
    = (Exited 0 o1 e1, fs1, ext1) →
  popen deploy_cmd fs1 ext1 = (Exited 0 o2 e2, fs2, ext2) →
  popen describe_cmd fs2 ext2 = (Exited code out err, fs3, ext3) →
  code ≠ 0 →
  ∃ evs,
    main popen yaml_dump w
    = (Exit code, World (delete TEMP_ENV_YAML fs3) ext3 (trace w ++ evs))
    ∧ spawned evs = [build_cmd; deploy_cmd; describe_cmd]
    ∧ last evs = Some (Spawn describe_cmd true)
    ∧ last (printed evs) = Some msg_step3.
Proof.
  intros Hne H1 H2 H3 Hcode.
  rewrite main_run, bind_run, load_nonempty by done.
  rewrite try_finally_cleanup.
  erewrite deploy_steps_describe_fails by done.
  cbn [fst snd fs ext trace].
  eexists. split; [by rewrite <- !app_assoc|].
  by destruct (negb _).
Qed.

(** If gcloud is not installed, [main] stops at the build: it prints that
    the command was not found, ends by [sys.exit(1)], has spawned nothing
    else, and the temporary file is removed. *)
Theorem missing_gcloud_exits_1 w m fs' ext' :
  loaded (fs w) ≠ ∅ →
  popen build_cmd
    (<[TEMP_ENV_YAML := yaml_dump (loaded (fs w))]> (fs w)) (ext w)
    = (Unstartable (FileNotFoundError m), fs', ext') →
  ∃ evs,
    main popen yaml_dump w
    = (Exit 1, World (delete TEMP_ENV_YAML fs') ext' (trace w ++ evs))
    ∧ spawned evs = [build_cmd]
    ∧ last (printed evs) = Some (lit "Command not found: " ++ m).
Proof.
  intros Hne Hp.
  rewrite main_run, bind_run, load_nonempty by done.
  rewrite try_finally_cleanup.
  erewrite deploy_steps_not_found by done.
  cbn [fst snd fs ext trace].
  eexists. split; [by rewrite <- !app_assoc|].
  by destruct (negb _).
Qed.


(** An env file in which no line stores an entry (blank lines, comments,
    lines without [=]) is treated like a missing one, except that no
    not-found error is printed: [main] prints that no variables were found
    and ends by [sys.exit(1)], with nothing written and nothing spawned. *)
Theorem file_without_entries_exits_1 w content :
  fs w !! ENV_FILE = Some content →
  Forall (λ l, line_entry l = None) (Py.readlines content) →
  main popen yaml_dump w
  = (Exit 1,
     World (fs w) (ext w)
       (trace w ++ [Print msg_project; Print msg_target; Print msg_reading;
                    Print msg_no_env])).
Proof.
  intros Hfile Hnone.
  assert (Hemp : loaded (fs w) = ∅).
  { unfold loaded. rewrite Hfile. by apply parse_lines_empty. }
  rewrite main_run, bind_run, load_empty by done. by rewrite Hfile.
Qed.

Lemma print_keeps_fs s w : fs (print s w).2 = fs w.
Proof. done. Qed.

Lemma bind_keeps_fs {A B} (m : M Ext A) (f : A → M Ext B) :
  (∀ w, fs (m w).2 = fs w) → (∀ a w, fs (f a w).2 = fs w) →
  ∀ w, fs ((m ≫= f) w).2 = fs w.
Proof.
  intros Hm Hf w. rewrite bind_run. specialize (Hm w).
  destruct (m w) as [[a|code|e] w1]; simpl in *; [|done..].
  by rewrite Hf.
Qed.

Lemma run_keeps_fs cmd check capture :
  (∀ cmd files e, (popen cmd files e).1.2 = files) →
  ∀ w, fs (run popen cmd check capture w).2 = fs w.
Proof.
  intros Hq w. specialize (Hq cmd (fs w) (ext w)).
  destruct (popen cmd (fs w) (ext w)) as [[c fs'] ext'] eqn:Hp.
  rewrite (run_cases popen cmd check capture w c fs' ext' Hp).
  simpl in Hq. subst fs'.
  destruct c as [[m|m]|code out err]; [done..|].
  by destruct (check && negb (code =? 0)).
Qed.

Lemma deploy_steps_keeps_fs :
  (∀ cmd files e, (popen cmd files e).1.2 = files) →
  ∀ w, fs (deploy_steps popen w).2 = fs w.
Proof.
  intros Hq. unfold deploy_steps, show_url.
  apply bind_keeps_fs; [apply print_keeps_fs|intros _].
  apply bind_keeps_fs; [by apply run_keeps_fs|intros _].
  apply bind_keeps_fs; [apply print_keeps_fs|intros _].
  apply bind_keeps_fs; [by apply run_keeps_fs|intros _].
  apply bind_keeps_fs; [apply print_keeps_fs|intros _].
  apply bind_keeps_fs; [by apply run_keeps_fs|intros r]. cbv zeta.
  destruct (Py.truthy _);
    (apply bind_keeps_fs; [apply print_keeps_fs|intros _; apply print_keeps_fs]).
Qed.

(** The only file [main] itself touches is the temporary one.  When the
    commands leave the file system alone and the parsed dict is not empty,
    the file system after [main] is the one before it without
    [env_vars_temp.yaml]: a file of that name that was there before the run
    is overwritten and removed too. *)
Theorem main_file_footprint w :
  (∀ cmd files e, (popen cmd files e).1.2 = files) →
  loaded (fs w) ≠ ∅ →
  fs (main popen yaml_dump w).2 = delete TEMP_ENV_YAML (fs w).
Proof.
  intros Hq Hne.
  rewrite main_run, bind_run, load_nonempty by done.
  rewrite try_finally_cleanup. cbn [snd fs].
  rewrite deploy_steps_keeps_fs by done. cbn [fs].
  apply delete_insert_eq.
Qed.

End MainPaths.

(** ** Concrete runs for the statements above *)

Lemma main_spawns_in_order_witness :
  let sh := gcloud ok (7, [], lit "denied") ok in
  let w := project (text ["A=1"]%string) in
  ∃ evs,
    trace (main sh dump_or_empty w).2 = trace w ++ evs
    ∧ spawned evs `prefix_of` [build_cmd; deploy_cmd; describe_cmd]
    ∧ ((main sh dump_or_empty w).1 = Ret tt
       → spawned evs = [build_cmd; deploy_cmd; describe_cmd]).
Proof. intros sh w. apply (main_spawns_in_order sh dump_or_empty w). Defined.

Lemma deploy_failure_halts_witness :
  let sh := gcloud ok (7, [], lit "denied") ok in
  let w := project (text ["A=1"]%string) in
  let files := <[TEMP_ENV_YAML := dump_or_empty (loaded (fs w))]> (fs w) in
  ∃ evs,
    main sh dump_or_empty w
    = (Exit 7, World (delete TEMP_ENV_YAML files) tt (trace w ++ evs))
    ∧ spawned evs = [build_cmd; deploy_cmd]
    ∧ last (printed evs) = Some (lit "Command failed.").
Proof.
  intros sh w files.
  apply (deploy_failure_halts sh dump_or_empty w [] [] files tt 7 []
           (lit "denied")).
  - by vm_compute.
  - reflexivity.
  - reflexivity.
  - lia.
Defined.

Lemma describe_failure_is_silent_witness :
  let sh := gcloud ok ok (9, [], lit "no such service") in
  let w := project (text ["A=1"]%string) in
  let files := <[TEMP_ENV_YAML := dump_or_empty (loaded (fs w))]> (fs w) in
  ∃ evs,
    main sh dump_or_empty w
    = (Exit 9, World (delete TEMP_ENV_YAML files) tt (trace w ++ evs))
    ∧ spawned evs = [build_cmd; deploy_cmd; describe_cmd]
    ∧ last evs = Some (Spawn describe_cmd true)
    ∧ last (printed evs) = Some msg_step3.
Proof.
  intros sh w files.
  apply (describe_failure_is_silent sh dump_or_empty w
           [] [] files tt [] [] files tt 9 [] (lit "no such service")).
  - by vm_compute.
  - reflexivity.
  - reflexivity.
  - reflexivity.
  - lia.
Defined.

Lemma missing_gcloud_exits_1_witness :
  let sh := λ (_ : command) (files : gmap str str) (e : unit),
              (Unstartable (FileNotFoundError (lit "gcloud")), files, e) in
  let w := project (text ["A=1"]%string) in
  let files := <[TEMP_ENV_YAML := dump_or_empty (loaded (fs w))]> (fs w) in
  ∃ evs,
    main sh dump_or_empty w
    = (Exit 1, World (delete TEMP_ENV_YAML files) tt (trace w ++ evs))
    ∧ spawned evs = [build_cmd]
    ∧ last (printed evs) = Some (lit "Command not found: " ++ lit "gcloud").
Proof.
  intros sh w files.
  apply (missing_gcloud_exits_1 sh dump_or_empty w (lit "gcloud") files tt).
  - by vm_compute.
  - reflexivity.
Defined.


Lemma file_without_entries_exits_1_witness :
  let sh := gcloud ok ok ok in
  let content := text [""; "# nothing here"; "export"]%string in
  let w := project content in
  main sh dump_or_empty w
  = (Exit 1,
     World (fs w) tt
       [Print msg_project; Print msg_target; Print msg_reading;
        Print msg_no_env]).
Proof.
  intros sh content w.
  apply (file_without_entries_exits_1 sh dump_or_empty w content).
  - reflexivity.
  - compute_done.
Defined.

Lemma main_file_footprint_witness :
  let sh := gcloud ok ok ok in
  let w : world unit :=
    World {[ ENV_FILE := text ["A=1"]%string; TEMP_ENV_YAML := lit "stale" ]}
      tt [] in
  fs (main sh dump_or_empty w).2 = delete TEMP_ENV_YAML (fs w).
Proof.
  intros sh w. apply (main_file_footprint sh dump_or_empty w).
  - intros cmd files e. unfold sh, gcloud. by repeat case_decide.
  - by vm_compute.
Defined.

(** * Blanks around a line, and the exit status 0 *)

Lemma lstrip_app_blank (p s : str) :
  blank p = true → Py.lstrip (p ++ s) = Py.lstrip s.
Proof.
  induction p as [|c p IH]; simpl; [done|].
  intros [Hc Hp]%andb_true_iff. rewrite Hc. auto.
Qed.

Lemma rstrip_app_blank (s p : str) :
  blank p = true → Py.rstrip (s ++ p) = Py.rstrip s.
Proof.
  intros Hp. unfold Py.rstrip. rewrite rev_app_distr.
  rewrite lstrip_app_blank; [done|].
  unfold blank in *. rewrite forallb_forall in *.
  intros c Hc. apply Hp. by apply in_rev.
Qed.

Lemma lstrip_decomp (s : str) :
  ∃ p, blank p = true ∧ s = p ++ Py.lstrip s.
Proof.
  induction s as [|c s (p & Hb & Hp)]; simpl; [by exists []|].
  destruct (Py.isspace c) eqn:Hc.
  - exists (c :: p). simpl. rewrite Hc, Hb. split; [done|]. by f_equal.
  - by exists [].
Qed.

Lemma lstrip_rstrip_comm (s : str) :
  Py.lstrip (Py.rstrip s) = Py.rstrip (Py.lstrip s).
Proof.
  destruct (lstrip_decomp s) as (p & Hb & Hp).
  destruct (lstrip_head s) as [Hnil|(c & t & Hc & Hsp)].
  - rewrite Hnil in *. rewrite app_nil_r in Hp. subst p.
    by rewrite rstrip_blank.
  - rewrite Hc in *. rewrite Hp at 1.
    rewrite rstrip_app_nonspace by done.
    rewrite lstrip_app_nonspace, lstrip_blank by done.
    symmetry. apply (rstrip_app_nonspace [] c t Hsp).
Qed.

(** White space before and after a line, the line terminator included,
    has no effect on what the line stores. *)
Theorem surrounding_blanks_are_ignored (p line p' : str) :
  blank p = true → blank p' = true →
  line_entry (p ++ line ++ p') = line_entry line.
Proof.
  intros Hp Hp'.
  assert (Hs : Py.strip (p ++ line ++ p') = Py.strip line).
  { unfold Py.strip. rewrite lstrip_app_blank by done.
    rewrite <- !lstrip_rstrip_comm. by rewrite rstrip_app_blank. }
  unfold line_entry. by rewrite Hs.
Qed.

Lemma surrounding_blanks_are_ignored_witness :
  line_entry (lit "    A=1" ++ [CR; LF]) = line_entry (lit "A=1").
Proof.
  apply (surrounding_blanks_are_ignored (lit "    ") (lit "A=1") [CR; LF]);
    reflexivity.
Defined.

Section ExitStatus.

Context {Ext : Type}.
Variable popen : command → gmap str str → Ext → child * gmap str str * Ext.
Variable yaml_dump : gmap str str → str.

Implicit Types (w : world Ext).

Lemma bind_exit_nonzero {A B} (m : M Ext A) (f : A → M Ext B) :
  (∀ w code, (m w).1 = Exit code → code ≠ 0) →
  (∀ a w code, (f a w).1 = Exit code → code ≠ 0) →
  ∀ w code, ((m ≫= f) w).1 = Exit code → code ≠ 0.
Proof.
  intros Hm Hf w code. rewrite bind_run. specialize (Hm w).
  destruct (m w) as [[a|code'|e] w1]; simpl in *.
  - apply Hf.
  - intros [= ->]. by apply Hm.
  - done.
Qed.

Lemma print_exit_nonzero s w code :
  (print s w : outcome unit * world Ext).1 = Exit code → code ≠ 0.
Proof. done. Qed.

Lemma run_exit_nonzero cmd capture w code :
  (run popen cmd true capture w).1 = Exit code → code ≠ 0.
Proof.
  destruct (popen cmd (fs w) (ext w)) as [[c fs'] ext'] eqn:Hp.
  rewrite (run_check popen cmd capture w c fs' ext' Hp).
  destruct c as [[m|m]|code' out err]; simpl; [by intros [= <-]|done|].
  destruct (code' =? 0) eqn:Hz; simpl; [done|].
  intros [= <-]. by apply Z.eqb_neq.
Qed.

Lemma deploy_steps_exit_nonzero w code :
  (deploy_steps popen w).1 = Exit code → code ≠ 0.
Proof.
  revert w code. unfold deploy_steps, show_url.
  apply bind_exit_nonzero; [apply print_exit_nonzero|intros _].
  apply bind_exit_nonzero; [apply run_exit_nonzero|intros _].
  apply bind_exit_nonzero; [apply print_exit_nonzero|intros _].
  apply bind_exit_nonzero; [apply run_exit_nonzero|intros _].
  apply bind_exit_nonzero; [apply print_exit_nonzero|intros _].
  apply bind_exit_nonzero; [apply run_exit_nonzero|intros r]. cbv zeta.
  destruct (Py.truthy _);
    (apply bind_exit_nonzero;
     [apply print_exit_nonzero|intros _; apply print_exit_nonzero]).
Qed.

(** The exit status of the process is 0 only when [main] returns
    normally: every [sys.exit] it can reach carries a status other than 0,
    and an uncaught exception gives status 1. *)
Theorem exit_status_zero_iff_normal_return w :
  exit_status (main popen yaml_dump w).1 = 0
  ↔ (main popen yaml_dump w).1 = Ret tt.
Proof.
  split; [|by intros ->].
  rewrite main_run, bind_run.
  destruct (decide (loaded (fs w) = ∅)) as [Hemp|Hne].
  - by rewrite load_empty.
  - rewrite load_nonempty by done. rewrite try_finally_cleanup.
    cbn [fst].
    match goal with
    | |- context [deploy_steps popen ?w1] =>
        pose proof (deploy_steps_exit_nonzero w1) as Hnz;
        destruct (deploy_steps popen w1) as [[[]|code|e] w2]
    end; simpl in *; [done| |done].
    intros ->. by destruct (Hnz 0).
Qed.

End ExitStatus.
